(** * A shallow embedding of [scraper.py]

    The scraper drives a browser over the result pages of a search,
    reads four fields out of every listing node, downloads the thumbnail
    of each listing and finally writes the records to a CSV file.

    Everything outside the program (the browser, the HTTP server, the
    file system's willingness to open a file) is an oracle of [Env];
    everything the program changes (standard output, files, the requests
    that were sent, the pages that were visited) is a field of [World].
    Python exceptions are values of [exn] carried by the [Raise] branch
    of [res]; an effectful Python function becomes a function in the
    monad [M], whose state survives a raised exception as it does in
    Python. *)

From Stdlib Require Import Ascii String DecimalString DecimalNat.
From stdpp Require Import gmap strings list fin_maps.

Local Open Scope string_scope.
Local Open Scope list_scope.
Local Open Scope Z_scope.

(** ** Python strings

    A [str] is modelled as a [string] whose characters are the code points
    0..255; [isalnum] and [isspace] are Python's predicates on that range. *)

Module PyStr.

Definition code (c : ascii) : nat := nat_of_ascii c.

Definition between (lo hi : nat) (c : ascii) : bool :=
  (lo <=? code c)%nat && (code c <=? hi)%nat.

(** [c.isalnum()]: decimal digits, letters, and the Latin-1 characters
    that Unicode classifies as letters or numbers. *)
Definition isalnum (c : ascii) : bool :=
  between 48 57 c || between 65 90 c || between 97 122 c
  || (code c =? 170)%nat || between 178 179 c || (code c =? 181)%nat
  || between 185 186 c || between 188 190 c
  || between 192 214 c || between 216 246 c || between 248 255 c.

(** [c.isspace()], the characters removed by [strip] and [rstrip]. *)
Definition isspace (c : ascii) : bool :=
  between 9 13 c || between 28 32 c || (code c =? 133)%nat
  || (code c =? 160)%nat.

Fixpoint filter (p : ascii -> bool) (s : string) : string :=
  match s with
  | EmptyString => EmptyString
  | String c s' => if p c then String c (filter p s') else filter p s'
  end.

Fixpoint all (p : ascii -> bool) (s : string) : bool :=
  match s with
  | EmptyString => true
  | String c s' => p c && all p s'
  end.

Fixpoint lstrip (s : string) : string :=
  match s with
  | EmptyString => EmptyString
  | String c s' => if isspace c then lstrip s' else s
  end.

Fixpoint rstrip (s : string) : string :=
  match s with
  | EmptyString => EmptyString
  | String c s' =>
      match rstrip s' with
      | EmptyString => if isspace c then EmptyString else String c EmptyString
      | r => String c r
      end
  end.

Definition strip (s : string) : string := lstrip (rstrip s).

(** [s[:n]] *)
Fixpoint slice_to (n : nat) (s : string) : string :=
  match n, s with
  | S n', String c s' => String c (slice_to n' s')
  | _, _ => EmptyString
  end.

(** [s.replace(a, b)] for one-character [a] and [b]. *)
Fixpoint replace (a b : ascii) (s : string) : string :=
  match s with
  | EmptyString => EmptyString
  | String c s' => String (if Ascii.eqb c a then b else c) (replace a b s')
  end.

(** [s.split(sep)] for a one-character separator: never an empty list. *)
Fixpoint split (sep : ascii) (s : string) : list string :=
  match s with
  | EmptyString => [EmptyString]
  | String c s' =>
      if Ascii.eqb c sep then EmptyString :: split sep s'
      else match split sep s' with
           | h :: t => String c h :: t
           | [] => [String c EmptyString]
           end
  end.

Fixpoint contains (c : ascii) (s : string) : bool :=
  match s with
  | EmptyString => false
  | String a s' => Ascii.eqb a c || contains c s'
  end.

Fixpoint last (s : string) : option ascii :=
  match s with
  | EmptyString => None
  | String c EmptyString => Some c
  | String _ s' => last s'
  end.

Definition startswith (c : ascii) (s : string) : bool :=
  match s with String a _ => Ascii.eqb a c | EmptyString => false end.

Definition endswith (c : ascii) (s : string) : bool :=
  match last s with Some a => Ascii.eqb a c | None => false end.

(** [f"{n}"] for a non-negative [int]. *)
Definition of_nat (n : nat) : string :=
  NilEmpty.string_of_uint (Nat.to_uint n).

End PyStr.

(** [os.path.join(a, b)] of [posixpath], two components. *)
Definition os_path_join (a b : string) : string :=
  if PyStr.startswith "/" b then b
  else if String.eqb a "" || PyStr.endswith "/" a then a +:+ b
  else a +:+ "/" +:+ b.

(** ** Python values and exceptions *)

(** The values a record field holds: a [str] or [None]. *)
Inductive pyval : Type :=
| VStr (s : string)
| VNone.

(** A [dict] with string keys, in insertion order. *)
Definition dict : Type := list (string * pyval).

Definition keys (d : dict) : list string := map fst d.

Fixpoint dict_get (d : dict) (k : string) : option pyval :=
  match d with
  | [] => None
  | (k', v) :: d' => if String.eqb k' k then Some v else dict_get d' k
  end.

Inductive pyclass : Type :=
| Exception
| WebDriverException
| NoSuchElementException
| TimeoutException
| StaleElementReferenceException
| AttributeError
| IndexError
| RequestException
| ConnectionError
| ReadTimeout
| OSError
| ValueError.

Definition pyclass_eqb (a b : pyclass) : bool :=
  match a, b with
  | Exception, Exception | WebDriverException, WebDriverException
  | NoSuchElementException, NoSuchElementException
  | TimeoutException, TimeoutException
  | StaleElementReferenceException, StaleElementReferenceException
  | AttributeError, AttributeError | IndexError, IndexError
  | RequestException, RequestException
  | ConnectionError, ConnectionError | ReadTimeout, ReadTimeout
  | OSError, OSError | ValueError, ValueError => true
  | _, _ => false
  end.

(** The direct base class; [Exception] is the root of what is modelled. *)
Definition base (c : pyclass) : option pyclass :=
  match c with
  | Exception => None
  | NoSuchElementException | TimeoutException
  | StaleElementReferenceException => Some WebDriverException
  | ConnectionError | ReadTimeout => Some RequestException
  | RequestException => Some OSError
  | _ => Some Exception
  end.

(** [issubclass(c, d)]; the hierarchy is three levels deep at most. *)
Definition issubclass (c d : pyclass) : bool :=
  pyclass_eqb c d
  || match base c with
     | None => false
     | Some c1 =>
         pyclass_eqb c1 d
         || match base c1 with
            | None => false
            | Some c2 =>
                pyclass_eqb c2 d
                || match base c2 with
                   | None => false
                   | Some c3 => pyclass_eqb c3 d
                   end
            end
     end.

Record exn : Type := mkExn { exn_class : pyclass; exn_msg : string }.

Definition isinstance (e : exn) (c : pyclass) : bool :=
  issubclass (exn_class e) c.

Inductive res (A : Type) : Type :=
| Ok (a : A)
| Raise (e : exn).
Arguments Ok {A} a.
Arguments Raise {A} e.

(** ** The world *)

(** What a file holds: the bytes written to it, or the rows handed to a
    [csv] writer (the serialisation of a row is the [csv] module's). *)
Inductive content : Type :=
| Bytes (b : string)
| Rows (rows : list (list pyval)).

Record World : Type := mkWorld {
  stdout : list string;            (* the lines printed, oldest first *)
  files : gmap string content;     (* path to what was written *)
  requests : list string;          (* the URLs given to [requests.get],
                                      one for each call *)
  visited : list string;           (* the URLs given to [driver.get] *)
  fetch_calls : list (option string * string * string)
                                   (* the calls of [download_image] *)
}.

Definition M (A : Type) : Type := World -> res A * World.

Definition ret {A} (a : A) : M A := fun w => (Ok a, w).

Definition raise {A} (e : exn) : M A := fun w => (Raise e, w).

Definition bind {A B} (m : M A) (k : A -> M B) : M B :=
  fun w => match m w with
           | (Ok a, w') => k a w'
           | (Raise e, w') => (Raise e, w')
           end.

Definition lift {A} (r : res A) : M A := fun w => (r, w).

(** [try: m  except c as e: h e] *)
Definition try_except {A} (m : M A) (c : pyclass) (h : exn -> M A) : M A :=
  fun w => match m w with
           | (Ok a, w') => (Ok a, w')
           | (Raise e, w') => if isinstance e c then h e w' else (Raise e, w')
           end.

Declare Scope py_scope.
Delimit Scope py_scope with py.
Notation "'do' x <- m ; k" := (bind m (fun x => k))
  (at level 10, x name, m at level 100, k at level 200) : py_scope.
Local Open Scope py_scope.

Definition print (line : string) : M unit :=
  fun w => (Ok tt, mkWorld (stdout w ++ [line]) (files w) (requests w)
                           (visited w) (fetch_calls w)).

Definition set_file (path : string) (c : content) : M unit :=
  fun w => (Ok tt, mkWorld (stdout w) (<[path := c]> (files w)) (requests w)
                           (visited w) (fetch_calls w)).

(** ** The collaborators *)

(** A response body read with [iter_content]: chunks, then the end of the
    stream or an exception of the transport. *)
Inductive body : Type :=
| BodyEnd
| BodyChunk (chunk : string) (rest : body)
| BodyFail (e : exn).

Inductive http_outcome : Type :=
| HttpResponse (status_code : Z) (b : body)
| HttpRaise (e : exn).

Record WebElement : Type := mkElement {
  text : string;
  attributes : list (string * string)
}.

(** [element.get_attribute(name)]: [None] when there is no such attribute. *)
Fixpoint lookup_attr (l : list (string * string)) (name : string)
  : option string :=
  match l with
  | [] => None
  | (k, v) :: l' => if String.eqb k name then Some v else lookup_attr l' name
  end.

Definition get_attribute (el : WebElement) (name : string) : option string :=
  lookup_attr (attributes el) name.

Inductive By : Type := TAG_NAME | CSS_SELECTOR.

(** A listing node answers [find_element] with an element or an exception
    ([NoSuchElementException] when nothing matches). *)
Record ListingNode : Type := mkNode {
  find_element : By -> string -> res WebElement
}.

(** What loading one result page comes to: [driver.get] raises, the wait
    for the listing container raises (a [TimeoutException] when the
    container does not appear in time), or the listing nodes are there. *)
Inductive page_outcome : Type :=
| GetRaises (e : exn)
| WaitRaises (e : exn)
| Loaded (items : list ListingNode).

(** The oracles. [browser i url] is the outcome of the navigation to [url]
    made after [i] earlier ones, [http_get i url] the outcome of the call
    of [requests.get] on [url] made after [i] earlier calls (what the
    library sends for it is the library's: it follows redirects, and
    raises before sending anything when the URL has no usable scheme),
    [open_error path] the exception of [open(path, 'w...')], if any. *)
Record Env : Type := mkEnv {
  browser : nat -> string -> page_outcome;
  http_get : nat -> string -> http_outcome;
  open_error : string -> option exn
}.

(** ** [download_image] *)

Definition requests_get (env : Env) (url : string) : M (Z * body) :=
  fun w =>
    let w' := mkWorld (stdout w) (files w) (requests w ++ [url])
                      (visited w) (fetch_calls w) in
    match http_get env (length (requests w)) url with
    | HttpResponse st b => (Ok (st, b), w')
    | HttpRaise e => (Raise e, w')
    end.

(** [open(path, 'wb')] or [open(path, 'w')]: the file is created or
    truncated. *)
Definition open_w (env : Env) (path : string) (empty : content) : M unit :=
  match open_error env path with
  | Some e => raise e
  | None => set_file path empty
  end.

(** [for chunk in response.iter_content(1024): f.write(chunk)] *)
Fixpoint write_chunks (path : string) (written : string) (b : body) : M unit :=
  match b with
  | BodyEnd => ret tt
  | BodyChunk c rest =>
      do _ <- set_file path (Bytes (written +:+ c));
      write_chunks path (written +:+ c) rest
  | BodyFail e => raise e
  end.

(** The characters of the desired name that are kept. *)
Definition keep (c : ascii) : bool :=
  PyStr.isalnum c
  || Ascii.eqb c " " || Ascii.eqb c "." || Ascii.eqb c "_".

Definition clean_filename (filename : string) : string :=
  PyStr.rstrip (PyStr.filter keep filename).

(** [not url] for a [str] or [None]. *)
Definition falsy (url : option string) : bool :=
  match url with
  | None => true
  | Some s => String.eqb s ""
  end.

Definition note_fetch (url : option string) (folder filename : string)
  : M unit :=
  fun w => (Ok tt, mkWorld (stdout w) (files w) (requests w) (visited w)
                           (fetch_calls w ++ [(url, folder, filename)])).

(** The body of the [try]: [Some v] is [return v], [None] is falling out
    of the [try] statement. *)
Definition download_try (env : Env) (url folder filename : string)
  : M (option pyval) :=
  do response <- requests_get env url;
  if fst response =? 200 then
    let clean := clean_filename filename in
    let filepath := os_path_join folder (clean +:+ ".jpg") in
    do _ <- open_w env filepath (Bytes "");
    do _ <- write_chunks filepath "" (snd response);
    ret (Some (VStr (clean +:+ ".jpg")))
  else ret None.

Definition download_image (env : Env) (url : option string)
  (folder filename : string) : M pyval :=
  do _ <- note_fetch url folder filename;
  if falsy url then ret VNone
  else
    let u := default "" url in
    do r <- try_except (download_try env u folder filename) Exception
              (fun e =>
                 do _ <- print ("Error downloading image " +:+ u +:+ ": "
                           +:+ exn_msg e);
                 ret None);
    match r with
    | Some v => ret v
    | None => ret VNone
    end.

(** ** [get_products] *)

(** Title: the stripped text of the node's [h2], or ["N/A"]. *)
Definition extract_title (item : ListingNode) : M string :=
  try_except
    (do title_element <- lift (find_element item TAG_NAME "h2");
     ret (PyStr.strip (text title_element)))
    NoSuchElementException (fun _ => ret "N/A").

(** Price: the whole part and the fraction, or ["N/A"]. *)
Definition extract_price (item : ListingNode) : M string :=
  try_except
    (do whole <- lift (find_element item CSS_SELECTOR "span.a-price-whole");
     let price_whole := text whole in
     do fraction <- lift (find_element item CSS_SELECTOR
                            "span.a-price-fraction");
     let price_fraction := text fraction in
     ret ("$" +:+ price_whole +:+ "." +:+ price_fraction))
    NoSuchElementException (fun _ => ret "N/A").

(** [value.split(' ')]: [None] has no [split]. *)
Definition split_space (value : option string) : res (list string) :=
  match value with
  | Some s => Ok (PyStr.split " " s)
  | None =>
      Raise (mkExn AttributeError
               "'NoneType' object has no attribute 'split'")
  end.

(** [l[0]] *)
Definition item0 (l : list string) : res string :=
  match l with
  | h :: _ => Ok h
  | [] => Raise (mkExn IndexError "list index out of range")
  end.

(** Rating: what comes before the first space of the icon's alternative
    text, or ["N/A"]. *)
Definition extract_rating (item : ListingNode) : M string :=
  try_except
    (do rating_element <- lift (find_element item CSS_SELECTOR
                                  "span.a-icon-alt");
     do parts <- lift (split_space (get_attribute rating_element "innerHTML"));
     lift (item0 parts))
    NoSuchElementException (fun _ => ret "N/A").

(** Image URL: the [src] of the node's image, or [None]. *)
Definition extract_image_url (item : ListingNode) : M (option string) :=
  try_except
    (do image_element <- lift (find_element item CSS_SELECTOR "img.s-image");
     ret (get_attribute image_element "src"))
    NoSuchElementException (fun _ => ret None).

Definition safe_title (title : string) : string :=
  if negb (String.eqb title "N/A") then PyStr.slice_to 30 title
  else "product".

(** The body of the per-item [try]: the record of one listing node, when
    [n] records have been collected so far. *)
Definition extract_item (env : Env) (item : ListingNode) (n : nat) : M dict :=
  do title <- extract_title item;
  do price <- extract_price item;
  do rating <- extract_rating item;
  do image_url <- extract_image_url item;
  do image_filename <-
    (if negb (falsy image_url) then
       download_image env image_url "images"
         (safe_title title +:+ "_" +:+ PyStr.of_nat n)
     else ret (VStr "N/A"));
  ret [("title", VStr title); ("price", VStr price);
       ("rating", VStr rating); ("image_filename", image_filename)].

(** One turn of [for item in items]. *)
Definition scrape_item (env : Env) (item : ListingNode) (products : list dict)
  : M (list dict) :=
  try_except
    (do record <- extract_item env item (length products);
     ret (products ++ [record]))
    Exception
    (fun e =>
       do _ <- print ("Error extracting item: " +:+ exn_msg e);
       ret products).

Fixpoint for_items (env : Env) (items : list ListingNode)
  (products : list dict) : M (list dict) :=
  match items with
  | [] => ret products
  | item :: rest =>
      do products' <- scrape_item env item products;
      for_items env rest products'
  end.

(** [driver.get(url)]: the browser answers with the page's outcome. *)
Definition navigate (env : Env) (url : string) : M page_outcome :=
  fun w => (Ok (browser env (length (visited w)) url),
            mkWorld (stdout w) (files w) (requests w) (visited w ++ [url])
                    (fetch_calls w)).

Definition driver_get (o : page_outcome) : M unit :=
  match o with GetRaises e => raise e | _ => ret tt end.

Definition wait_until (o : page_outcome) : M unit :=
  match o with WaitRaises e => raise e | _ => ret tt end.

Definition find_elements (o : page_outcome) : list ListingNode :=
  match o with Loaded items => items | _ => [] end.

Definition page_url (base_url : string) (page : nat) : string :=
  base_url +:+ "&page=" +:+ PyStr.of_nat page.

(** One turn of [for page in range(1, pages + 1)]. *)
Definition scrape_page (env : Env) (base_url : string) (page : nat)
  (products : list dict) : M (list dict) :=
  let url := page_url base_url page in
  do _ <- print ("Scraping page " +:+ PyStr.of_nat page +:+ ": " +:+ url);
  do o <- navigate env url;
  do _ <- driver_get o;
  do loaded <-
    try_except (do _ <- wait_until o; ret true)
      TimeoutException
      (fun _ =>
         do _ <- print ("Timeout waiting for page " +:+ PyStr.of_nat page
                        +:+ " to load.");
         ret false);
  if loaded : bool then for_items env (find_elements o) products
  else ret products.

Fixpoint for_pages (env : Env) (base_url : string) (pages : list nat)
  (products : list dict) : M (list dict) :=
  match pages with
  | [] => ret products
  | page :: rest =>
      do products' <- scrape_page env base_url page products;
      for_pages env base_url rest products'
  end.

Definition base_url_of (keyword : string) : string :=
  "https://www.amazon.com/s?k=" +:+ PyStr.replace " " "+" keyword.

Definition get_products (env : Env) (keyword : string) (pages : nat)
  : M (list dict) :=
  for_pages env (base_url_of keyword) (seq 1 pages) [].

(** ** [save_to_csv] *)

(** [DictWriter._dict_to_list]: a key outside the field names is an error,
    a missing field is written as the empty string. *)
Definition dict_to_list (fieldnames : list string) (d : dict)
  : res (list pyval) :=
  if forallb (fun k => existsb (String.eqb k) fieldnames) (keys d) then
    Ok (map (fun k => default (VStr "") (dict_get d k)) fieldnames)
  else
    Raise (mkExn ValueError "dict contains fields not in fieldnames").

(** [dict_writer.writerows(products)], after [written]. *)
Fixpoint writerows (path : string) (fieldnames : list string)
  (written : list (list pyval)) (products : list dict) : M unit :=
  match products with
  | [] => ret tt
  | d :: rest =>
      do row <- lift (dict_to_list fieldnames d);
      do _ <- set_file path (Rows (written ++ [row]));
      writerows path fieldnames (written ++ [row]) rest
  end.

Definition header (fieldnames : list string) : list pyval :=
  map VStr fieldnames.

Definition save_to_csv (env : Env) (products : list dict) (filename : string)
  : M unit :=
  match products with
  | [] => print "No products to save."
  | first :: _ =>
      let fieldnames := keys first in
      try_except
        (do _ <- open_w env filename (Rows []);
         do _ <- set_file filename (Rows [header fieldnames]);
         do _ <- writerows filename fieldnames [header fieldnames] products;
         print ("Successfully saved " +:+ PyStr.of_nat (length products)
                +:+ " products to " +:+ filename))
        Exception
        (fun e => print ("Error saving to CSV: " +:+ exn_msg e))
  end.

(** ** [setup_driver] and [main] *)

(** What [main] meets besides the pages and the network: the line typed
    at the prompt (or the exception of [input]), whether the folder of
    the images exists, and the exceptions, if any, of creating it, of
    starting the browser with given arguments and binary, and of
    quitting it. *)
Record Host : Type := mkHost {
  input_line : res string;
  images_exists : bool;
  makedirs_error : option exn;
  chrome_error : list string -> string -> option exn;
  quit_error : option exn
}.

(** The state of a run of [main]: the world, the folders created, the
    browsers started, with their arguments and binary, the calls of
    [driver.quit], and the local variable [driver] ([None], or the
    driver). *)
Record Process : Type := mkProcess {
  world : World;
  made_dirs : list string;
  started : list (list string * string);
  quit_calls : nat;
  driver : option unit
}.

Definition P (A : Type) : Type := Process -> res A * Process.

Definition retP {A} (a : A) : P A := fun p => (Ok a, p).

Definition bindP {A B} (m : P A) (k : A -> P B) : P B :=
  fun p => match m p with
           | (Ok a, p') => k a p'
           | (Raise e, p') => (Raise e, p')
           end.

Notation "'doP' x <- m ; k" := (bindP m (fun x => k))
  (at level 10, x name, m at level 100, k at level 200) : py_scope.

(** A computation on the world, run inside [main]. *)
Definition in_world {A} (m : M A) : P A :=
  fun p => let (r, w') := m (world p) in
           (r, mkProcess w' (made_dirs p) (started p) (quit_calls p)
                 (driver p)).

Definition try_exceptP {A} (m : P A) (c : pyclass) (h : exn -> P A) : P A :=
  fun p => match m p with
           | (Ok a, p') => (Ok a, p')
           | (Raise e, p') => if isinstance e c then h e p' else (Raise e, p')
           end.

(** [try: m  finally: f]: [f] runs in any case; its exception, if it
    raises, is the one that goes on. *)
Definition try_finally {A} (m : P A) (f : P unit) : P A :=
  fun p => match m p with
           | (r, p') =>
               match f p' with
               | (Ok _, p'') => (r, p'')
               | (Raise e, p'') => (Raise e, p'')
               end
           end.

(** [input(prompt)]: the prompt is written, the line read. *)
Definition input (host : Host) (prompt : string) : P string :=
  doP _ <- in_world (print prompt);
  fun p => (input_line host, p).

(** [os.makedirs(path)] *)
Definition makedirs (host : Host) (path : string) : P unit :=
  fun p => match makedirs_error host with
           | Some e => (Raise e, p)
           | None => (Ok tt, mkProcess (world p) (made_dirs p ++ [path])
                               (started p) (quit_calls p) (driver p))
           end.

Definition set_driver (d : option unit) : P unit :=
  fun p => (Ok tt, mkProcess (world p) (made_dirs p) (started p)
                     (quit_calls p) d).

(** [driver.quit()] *)
Definition quit (host : Host) : P unit :=
  fun p => (match quit_error host with Some e => Raise e | None => Ok tt end,
            mkProcess (world p) (made_dirs p) (started p)
              (S (quit_calls p)) (driver p)).

Definition user_agent : string :=
  "user-agent=Mozilla/5.0 (Windows NT 10.0; Win64; x64) AppleWebKit/537.36 (KHTML, like Gecko) Chrome/91.0.4472.124 Safari/537.36".

(** The arguments [setup_driver] adds to the options. *)
Definition chrome_arguments (headless : bool) : list string :=
  (if headless then ["--headless"] else [])
  ++ ["--no-sandbox"; "--disable-dev-shm-usage"; "--window-size=1920,1080";
      user_agent].

Definition binary_location : string := "/usr/bin/chromium-browser".

(** [webdriver.Chrome(options=chrome_options)] *)
Definition setup_driver (host : Host) (headless : bool) : P unit :=
  fun p => match chrome_error host (chrome_arguments headless)
                   binary_location with
           | Some e => (Raise e, p)
           | None => (Ok tt, mkProcess (world p) (made_dirs p)
                               (started p
                                ++ [(chrome_arguments headless,
                                     binary_location)])
                               (quit_calls p) (driver p))
           end.

Definition prompt : string := "Enter the product you want to search for: ".

Definition csv_path : string := "/home/ubuntu/selenium_scraper/products.csv".

Definition main (host : Host) (env : Env) : P unit :=
  doP typed <- input host prompt;
  let keyword := if String.eqb typed "" then "laptop" else typed in
  doP _ <- (if negb (images_exists host) then makedirs host "images"
            else retP tt);
  doP _ <- in_world (print ("Starting scraper for: " +:+ keyword));
  doP _ <- set_driver None;
  try_finally
    (try_exceptP
       (doP d <- setup_driver host true;
        doP _ <- set_driver (Some d);
        doP product_list <- in_world (get_products env keyword 2);
        in_world (save_to_csv env product_list csv_path))
       Exception
       (fun e =>
          in_world (print ("An error occurred during execution: "
                           +:+ exn_msg e))))
    (fun p =>
       match driver p with
       | Some _ =>
           (doP _ <- quit host; in_world (print "Browser closed.")) p
       | None => (Ok tt, p)
       end).

(** ** Concrete worlds used by the examples *)

Module Sample.

Definition w0 : World := mkWorld [] ∅ [] [] [].

Definition el (t : string) : WebElement := mkElement t [].

Definition missing {A} : res A :=
  Raise (A := A) (mkExn NoSuchElementException "no such element").

Definition stale {A} : res A :=
  Raise (A := A) (mkExn StaleElementReferenceException "stale element").

(** A node given by its five sub-elements. *)
Definition node (h2 whole fraction icon img : res WebElement) : ListingNode :=
  mkNode (fun by_ sel =>
    match by_ with
    | TAG_NAME => if String.eqb sel "h2" then h2 else missing
    | CSS_SELECTOR =>
        if String.eqb sel "span.a-price-whole" then whole
        else if String.eqb sel "span.a-price-fraction" then fraction
        else if String.eqb sel "span.a-icon-alt" then icon
        else if String.eqb sel "img.s-image" then img
        else missing
    end).

Definition icon (html : string) : WebElement :=
  mkElement "" [("innerHTML", html)].

Definition img (src : string) : WebElement :=
  mkElement "" [("src", src)].

Definition full (name : string) : ListingNode :=
  node (Ok (el ("  " +:+ name +:+ " "))) (Ok (el "12")) (Ok (el "99"))
       (Ok (icon "4.5 out of 5 stars")) (Ok (img ("http://img/" +:+ name))).

Definition bare : ListingNode :=
  node missing missing missing missing missing.

(** No title, a whole part without a fraction, a rating, no image. *)
Definition partial : ListingNode :=
  node missing (Ok (el "12")) missing (Ok (icon "4.5 out of 5 stars"))
       missing.

(** The world after the one request of an image that was not stored. *)
Definition w_sent (name : string) : World :=
  mkWorld [] ∅ ["http://img/" +:+ name] [] 
    [(Some ("http://img/" +:+ name), "images", name +:+ "_0")].

Definition ok_body : body := BodyChunk "ab" (BodyChunk "cd" BodyEnd).

(** Every GET answers 200 with four bytes; pages 1 and 2 are loaded. *)
Definition env_ok : Env :=
  mkEnv (fun i _ =>
           match i with
           | O => Loaded [full "A"; full "B"]
           | _ => Loaded [full "C"]
           end)
        (fun _ _ => HttpResponse 200 ok_body)
        (fun _ => None).

(** The same listing on both pages. *)
Definition env_twice : Env :=
  mkEnv (fun _ _ => Loaded [full "A"])
        (fun _ _ => HttpResponse 200 ok_body)
        (fun _ => None).

(** Every GET answers 404. *)
Definition env_404 : Env :=
  mkEnv (fun _ _ => Loaded [full "A"])
        (fun _ _ => HttpResponse 404 BodyEnd)
        (fun _ => None).

(** Every GET times out; the first page times out too. *)
Definition env_timeout : Env :=
  mkEnv (fun i _ =>
           match i with
           | O => WaitRaises (mkExn TimeoutException "timeout")
           | _ => Loaded [full "C"; bare]
           end)
        (fun _ _ => HttpRaise (mkExn ReadTimeout "read timed out"))
        (fun _ => None).

(** A host on which nothing fails: an empty line is typed, the folder of
    the images is there. *)
Definition host_ok : Host :=
  mkHost (Ok "") true None (fun _ _ => None) None.

(** A host whose browser does not start. *)
Definition host_no_chrome : Host :=
  mkHost (Ok "tv") true None
    (fun _ _ => Some (mkExn WebDriverException "chrome not reachable"))
    None.

(** A host whose folder of images is missing and cannot be created. *)
Definition host_no_folder : Host :=
  mkHost (Ok "tv") false (Some (mkExn OSError "permission denied"))
    (fun _ _ => None) None.

Definition p0 : Process := mkProcess w0 [] [] 0 None.

(** Every body breaks off after two bytes. *)
Definition env_cut : Env :=
  mkEnv (fun _ _ => Loaded [full "A"])
        (fun _ _ =>
           HttpResponse 200
             (BodyChunk "ab" (BodyFail (mkExn ConnectionError "reset"))))
        (fun _ => None).

(** One page of two listings without an image. *)
Definition env_plain : Env :=
  mkEnv (fun _ _ => Loaded [bare; partial])
        (fun _ _ => HttpResponse 200 ok_body)
        (fun _ => None).

(** A listing with everything and one with an image only. *)
Definition env_untitled : Env :=
  mkEnv (fun _ _ =>
           Loaded [full "A";
                   node missing missing missing missing
                        (Ok (img "http://img/x"))])
        (fun _ _ => HttpResponse 200 ok_body)
        (fun _ => None).

(** The first page cannot be loaded at all. *)
Definition env_down : Env :=
  mkEnv (fun _ _ => GetRaises (mkExn WebDriverException "net::ERR"))
        (fun _ _ => HttpRaise (mkExn ConnectionError "refused"))
        (fun _ => None).

End Sample.

(** * The vocabulary of the properties *)

(** A computation that only reads: the same result in every world, and
    the world left as it was. *)
Definition pure {A} (m : M A) : Prop := exists r, forall w, m w = (r, w).

(** The bytes of a body, and the exception that ends it, if any. *)
Fixpoint body_bytes (b : body) : string :=
  match b with
  | BodyEnd => ""
  | BodyChunk c rest => c +:+ body_bytes rest
  | BodyFail _ => ""
  end.

Fixpoint body_error (b : body) : option exn :=
  match b with
  | BodyEnd => None
  | BodyChunk _ rest => body_error rest
  | BodyFail e => Some e
  end.

(** The world after the call was noted and the request sent. *)
Definition sent (w : World) (u folder filename : string) : World :=
  mkWorld (stdout w) (files w) (requests w ++ [u]) (visited w)
          (fetch_calls w ++ [(Some u, folder, filename)]).

Definition diagnostic (u : string) (e : exn) : string :=
  "Error downloading image " +:+ u +:+ ": " +:+ exn_msg e.

Definition logged (w : World) (line : string) : World :=
  mkWorld (stdout w ++ [line]) (files w) (requests w) (visited w)
          (fetch_calls w).

(** The five sub-elements the extraction looks for. *)
Definition h2_of (item : ListingNode) : res WebElement :=
  find_element item TAG_NAME "h2".
Definition whole_of (item : ListingNode) : res WebElement :=
  find_element item CSS_SELECTOR "span.a-price-whole".
Definition fraction_of (item : ListingNode) : res WebElement :=
  find_element item CSS_SELECTOR "span.a-price-fraction".
Definition icon_of (item : ListingNode) : res WebElement :=
  find_element item CSS_SELECTOR "span.a-icon-alt".
Definition img_of (item : ListingNode) : res WebElement :=
  find_element item CSS_SELECTOR "img.s-image".

(** The sub-element is not there: the lookup raised
    [NoSuchElementException]. *)
Definition absent (r : res WebElement) : Prop :=
  exists e, r = Raise e /\ isinstance e NoSuchElementException = true.

Definition found_or_absent (r : res WebElement) : Prop :=
  (exists el, r = Ok el) \/ absent r.

(** The record built from the four fields. *)
Definition record (t p g : string) (f : pyval) : dict :=
  [("title", VStr t); ("price", VStr p); ("rating", VStr g);
   ("image_filename", f)].

Definition image_name (t : string) (n : nat) : string :=
  safe_title t +:+ "_" +:+ PyStr.of_nat n.

(** A node whose lookups fail, if they fail, by a missing element only,
    and whose rating icon, if there, has its alternative text. *)
Definition missing_only (item : ListingNode) : Prop :=
  found_or_absent (h2_of item)
  /\ found_or_absent (whole_of item)
  /\ found_or_absent (fraction_of item)
  /\ found_or_absent (icon_of item)
  /\ found_or_absent (img_of item)
  /\ (forall el, icon_of item = Ok el ->
                 is_Some (get_attribute el "innerHTML")).

(** The node has no image source: no image element, or one whose [src]
    is [None] or empty. *)
Definition no_image_source (item : ListingNode) : Prop :=
  absent (img_of item)
  \/ exists el, img_of item = Ok el /\ falsy (get_attribute el "src") = true.

(** The download does not succeed: the GET raises (a timeout or a
    transport error), answers another status than 200, or the body breaks
    off while it is read. *)
Definition download_fails (o : http_outcome) : Prop :=
  match o with
  | HttpRaise _ => True
  | HttpResponse st b => st <> 200 \/ is_Some (body_error b)
  end.

(** What a listing node comes to: [Some r] when its extraction yields the
    record [r], [None] when its extraction raises (it raises in every
    world, then) and the node is skipped. *)
Definition yields (env : Env) (item : ListingNode) (o : option dict) : Prop :=
  match o with
  | Some r => exists n w w', extract_item env item n w = (Ok r, w')
  | None => exists e, forall n w, extract_item env item n w = (Raise e, w)
  end.

(** The records among the outcomes, in their order. *)
Fixpoint collected (outs : list (option dict)) : list dict :=
  match outs with
  | [] => []
  | Some r :: rest => r :: collected rest
  | None :: rest => collected rest
  end.

(** A page that does not end the run: it loads, or the wait for it
    raises a [TimeoutException]. *)
Definition page_ok (o : page_outcome) : Prop :=
  match o with
  | GetRaises _ => False
  | WaitRaises e => isinstance e TimeoutException = true
  | Loaded _ => True
  end.

(** The pages [a], [a+1], ..., [a+k-1], the first of them being the
    navigation number [i], all are [page_ok]. *)
Fixpoint pages_ok (env : Env) (base_url : string) (i a k : nat) : Prop :=
  match k with
  | O => True
  | S k' =>
      page_ok (browser env i (page_url base_url a))
      /\ pages_ok env base_url (S i) (S a) k'
  end.

(** The listing nodes of these pages: page by page, and in each page in
    the order of the page. *)
Fixpoint page_nodes (env : Env) (base_url : string) (i a k : nat)
  : list ListingNode :=
  match k with
  | O => []
  | S k' =>
      find_elements (browser env i (page_url base_url a))
      ++ page_nodes env base_url (S i) (S a) k'
  end.

Definition item_error (e : exn) : string :=
  "Error extracting item: " +:+ exn_msg e.

Definition scraping (base_url : string) (page : nat) : string :=
  "Scraping page " +:+ PyStr.of_nat page +:+ ": " +:+ page_url base_url page.

Definition timed_out (page : nat) : string :=
  "Timeout waiting for page " +:+ PyStr.of_nat page +:+ " to load.".

(** The world after the navigation to a page. *)
Definition arrived (w : World) (base_url : string) (page : nat) : World :=
  mkWorld (stdout w ++ [scraping base_url page]) (files w) (requests w)
          (visited w ++ [page_url base_url page]) (fetch_calls w).

(** The record [r] is the [n]-th of a run: a record whose image field
    is ["N/A"], [None], or the file name made of its title (of
    ["product"] when the title is ["N/A"]) and [n]. *)
Definition named (n : nat) (r : dict) : Prop :=
  exists t p g v,
    r = record t p g v
    /\ (v = VStr "N/A" \/ v = VNone
        \/ v = VStr (clean_filename (image_name t n) +:+ ".jpg")).

(** The image field of the record is not ["N/A"]. *)
Definition has_image (r : dict) : bool :=
  match dict_get r "image_filename" with
  | Some (VStr s) => negb (String.eqb s "N/A")
  | Some VNone => true
  | None => false
  end.

(** A path of the form [images/name], [name] without a slash. *)
Definition in_images (path : string) : Prop :=
  exists name, path = "images/" +:+ name /\ PyStr.contains "/" name = false.

(** A decimal digit. *)
Definition isdigit (c : ascii) : bool := PyStr.between 48 57 c.

(** The line printed after the records were saved. *)
Definition saved (products : list dict) (filename : string) : string :=
  "Successfully saved " +:+ PyStr.of_nat (length products)
  +:+ " products to " +:+ filename.

(** The keyword [main] searches for: what was typed, or ["laptop"]. *)
Definition keyword_of (typed : string) : string :=
  if String.eqb typed "" then "laptop" else typed.

(** The world of [main] when the browser is about to be started. *)
Definition greeted (w : World) (typed : string) : World :=
  logged (logged w prompt) ("Starting scraper for: " +:+ keyword_of typed).

Definition failed (e : exn) : string :=
  "An error occurred during execution: " +:+ exn_msg e.

(** The characters of a desired name that are to stay: letters and
    digits, the space, the period and the underscore. *)
Definition retained (c : ascii) : bool :=
  PyStr.isalnum c || existsb (Ascii.eqb c) [" "; "."; "_"]%char.

(** * Properties *)

(** ** Strings *)

Module PyStrFacts.
Import PyStr.

Lemma all_filter p s : all p (filter p s) = true.
Proof.
  induction s as [|c s IH]; simpl; [done|].
  destruct (p c) eqn:Hc; simpl; [by rewrite Hc|done].
Qed.

Lemma all_rstrip p s : all p s = true -> all p (rstrip s) = true.
Proof.
  induction s as [|c s IH]; simpl; [done|].
  intros [Hc Hs]%andb_prop. specialize (IH Hs).
  destruct (rstrip s) as [|c' r].
  - destruct (isspace c); simpl; [done|by rewrite Hc].
  - simpl in *. by rewrite Hc, IH.
Qed.

(** [rstrip] removes a suffix made of white space only... *)
Lemma rstrip_suffix s :
  exists tail, s = rstrip s +:+ tail /\ all isspace tail = true.
Proof.
  induction s as [|c s (tail & Hs & Ht)]; simpl.
  - by exists "".
  - destruct (rstrip s) as [|c' r] eqn:Hr.
    + destruct (isspace c) eqn:Hc.
      * exists (String c tail). simpl in *. rewrite Hc, Ht. by rewrite Hs at 1.
      * exists tail. simpl in *. split; [by rewrite Hs at 1|done].
    + exists tail. split; [|done]. simpl in *. by rewrite Hs at 1.
Qed.

(** ... and what is left does not end in white space. *)
Lemma rstrip_last s c : last (rstrip s) = Some c -> isspace c = false.
Proof.
  revert c. induction s as [|a s IH]; simpl; [done|]. intros c.
  destruct (rstrip s) as [|c' r] eqn:Hr.
  - destruct (isspace a) eqn:Ha; simpl; [done|]. by intros [= <-].
  - intros H. apply IH. exact H.
Qed.

Lemma split_head sep s :
  exists h t, split sep s = h :: t /\ contains sep h = false
    /\ ((t = [] /\ s = h) \/ exists rest, s = h +:+ String sep rest).
Proof.
  induction s as [|c s (h & t & Hs & Hh & Hcase)]; simpl.
  - exists "", []. by auto.
  - destruct (Ascii.eqb c sep) eqn:Hc.
    + apply Ascii.eqb_eq in Hc as ->.
      exists "", (split sep s). split; [done|]. split; [done|].
      right. by exists s.
    + rewrite Hs. exists (String c h), t. split; [done|].
      split; [by simpl; rewrite Hc|].
      destruct Hcase as [[-> ->]|[rest ->]]; [by left|].
      right. by exists rest.
Qed.

Lemma length_append a b :
  String.length (a +:+ b) = (String.length a + String.length b)%nat.
Proof. induction a as [|c a IH]; simpl; [done|by rewrite IH]. Qed.

End PyStrFacts.

(** ** The monad *)

Lemma isinstance_Exception e : isinstance e Exception = true.
Proof. by destruct e as [[] ?]. Qed.

Lemma pure_ret {A} (a : A) : pure (ret a).
Proof. by exists (Ok a). Qed.

Lemma pure_lift {A} (r : res A) : pure (lift r).
Proof. by exists r. Qed.

Lemma pure_bind {A B} (m : M A) (k : A -> M B) :
  pure m -> (forall a, pure (k a)) -> pure (bind m k).
Proof.
  intros [[a|e] Hm] Hk.
  - destruct (Hk a) as [r Hr]. exists r. intros w. unfold bind.
    by rewrite Hm, Hr.
  - exists (Raise e). intros w. unfold bind. by rewrite Hm.
Qed.

Lemma pure_try_except {A} (m : M A) c (h : exn -> M A) :
  pure m -> (forall e, pure (h e)) -> pure (try_except m c h).
Proof.
  intros [[a|e] Hm] Hh.
  - exists (Ok a). intros w. unfold try_except. by rewrite Hm.
  - destruct (isinstance e c) eqn:Hc.
    + destruct (Hh e) as [r Hr]. exists r. intros w. unfold try_except.
      by rewrite Hm, Hc, Hr.
    + exists (Raise e). intros w. unfold try_except. by rewrite Hm, Hc.
Qed.

Create HintDb pure discriminated.
#[local] Hint Resolve pure_ret pure_lift : pure.
#[local] Hint Extern 2 (pure (bind _ _)) =>
  apply pure_bind; [|intros ?] : pure.
#[local] Hint Extern 2 (pure (try_except _ _ _)) =>
  apply pure_try_except; [|intros ?] : pure.

Lemma pure_extract_title item : pure (extract_title item).
Proof. unfold extract_title. auto with pure. Qed.

Lemma pure_extract_price item : pure (extract_price item).
Proof. unfold extract_price. auto 8 with pure. Qed.

Lemma pure_extract_rating item : pure (extract_rating item).
Proof. unfold extract_rating. auto 8 with pure. Qed.

Lemma pure_extract_image_url item : pure (extract_image_url item).
Proof. unfold extract_image_url. auto with pure. Qed.

(** ** [download_image] *)

Lemma append_empty_r s : s +:+ "" = s.
Proof. induction s as [|c s IH]; [done|]. cbv [String.append] in *. by f_equal. Qed.

Lemma append_assoc a b c : (a +:+ b) +:+ c = a +:+ (b +:+ c).
Proof. induction a as [|x a IH]; [done|]. cbv [String.append] in *. by f_equal. Qed.

Lemma write_chunks_run path acc b w :
  exists w',
    write_chunks path acc b w
    = (match body_error b with None => Ok tt | Some e => Raise e end, w')
    /\ stdout w' = stdout w /\ requests w' = requests w
    /\ visited w' = visited w /\ fetch_calls w' = fetch_calls w
    /\ (body_error b = None -> files w !! path = Some (Bytes acc) ->
        files w' = <[path := Bytes (acc +:+ body_bytes b)]> (files w)).
Proof.
  revert acc w. induction b as [|c rest IH|e]; intros acc w; simpl.
  - exists w. repeat split; try done. intros _ Hw.
    by rewrite append_empty_r, insert_id.
  - unfold bind, set_file.
    destruct (IH (acc +:+ c)
                (mkWorld (stdout w) (<[path:=Bytes (acc +:+ c)]> (files w))
                   (requests w) (visited w) (fetch_calls w)))
      as (w' & Hrun & Hout & Hreq & Hvis & Hcalls & Hfiles).
    exists w'. rewrite Hrun. simpl in *. repeat split; try done.
    intros Hok _. rewrite Hfiles; [|done|by rewrite lookup_insert_eq].
      by rewrite insert_insert_eq, append_assoc.
  - exists w. by repeat split.
Qed.

Lemma download_absent env url folder filename w :
  falsy url = true ->
  download_image env url folder filename w
  = (Ok VNone, mkWorld (stdout w) (files w) (requests w) (visited w)
                 (fetch_calls w ++ [(url, folder, filename)])).
Proof.
  intros H. unfold download_image, bind, note_fetch. simpl. by rewrite H.
Qed.

Lemma download_raise env u folder filename w e :
  falsy (Some u) = false ->
  http_get env (length (requests w)) u = HttpRaise e ->
  download_image env (Some u) folder filename w
  = (Ok VNone, logged (sent w u folder filename) (diagnostic u e)).
Proof.
  intros Hu Hget.
  unfold download_image, bind, note_fetch, try_except, download_try, bind,
    requests_get. simpl in *. rewrite Hu. simpl. rewrite Hget.
  by rewrite isinstance_Exception.
Qed.

Lemma download_status env u folder filename w st b :
  falsy (Some u) = false ->
  http_get env (length (requests w)) u = HttpResponse st b ->
  st <> 200 ->
  download_image env (Some u) folder filename w
  = (Ok VNone, sent w u folder filename).
Proof.
  intros Hu Hget Hst.
  unfold download_image, bind, note_fetch, try_except, download_try, bind,
    requests_get. simpl in *. rewrite Hu. simpl. rewrite Hget. simpl.
  by destruct (Z.eqb_spec st 200).
Qed.

Lemma download_open_error env u folder filename w b e :
  falsy (Some u) = false ->
  http_get env (length (requests w)) u = HttpResponse 200 b ->
  open_error env (os_path_join folder (clean_filename filename +:+ ".jpg"))
  = Some e ->
  download_image env (Some u) folder filename w
  = (Ok VNone, logged (sent w u folder filename) (diagnostic u e)).
Proof.
  intros Hu Hget Hopen.
  unfold download_image, bind, note_fetch, try_except, download_try, bind,
    requests_get, open_w. simpl in *. rewrite Hu. simpl. rewrite Hget. simpl.
  rewrite Hopen. unfold raise. by rewrite isinstance_Exception.
Qed.

Lemma download_stored env u folder filename w b :
  falsy (Some u) = false ->
  http_get env (length (requests w)) u = HttpResponse 200 b ->
  open_error env (os_path_join folder (clean_filename filename +:+ ".jpg"))
  = None ->
  body_error b = None ->
  download_image env (Some u) folder filename w
  = (Ok (VStr (clean_filename filename +:+ ".jpg")),
     mkWorld (stdout w)
       (<[os_path_join folder (clean_filename filename +:+ ".jpg")
          := Bytes (body_bytes b)]> (files w))
       (requests w ++ [u]) (visited w)
       (fetch_calls w ++ [(Some u, folder, filename)])).
Proof.
  intros Hu Hget Hopen Hbody.
  unfold download_image, bind, note_fetch, try_except, download_try, bind,
    requests_get, open_w. simpl in *. rewrite Hu. simpl. rewrite Hget. simpl.
  rewrite Hopen. unfold set_file. simpl.
  match goal with |- context [write_chunks ?p ?a ?b ?w0] =>
    destruct (write_chunks_run p a b w0)
      as (w' & Hrun & Hout & Hreq & Hvis & Hcalls & Hfiles)
  end.
  rewrite Hrun, Hbody. simpl in *.
  specialize (Hfiles Hbody (lookup_insert_eq _ _ _)).
  rewrite insert_insert_eq in Hfiles. change ("" +:+ ?x) with x in Hfiles.
  destruct w' as [o f r v c]. simpl in *. unfold ret. by subst.
Qed.

Lemma download_stream_error env u folder filename w b e :
  falsy (Some u) = false ->
  http_get env (length (requests w)) u = HttpResponse 200 b ->
  open_error env (os_path_join folder (clean_filename filename +:+ ".jpg"))
  = None ->
  body_error b = Some e ->
  exists w',
    download_image env (Some u) folder filename w = (Ok VNone, w')
    /\ stdout w' = stdout w ++ [diagnostic u e]
    /\ requests w' = requests w ++ [u]
    /\ visited w' = visited w
    /\ fetch_calls w' = fetch_calls w ++ [(Some u, folder, filename)].
Proof.
  intros Hu Hget Hopen Hbody.
  unfold download_image, bind, note_fetch, try_except, download_try, bind,
    requests_get, open_w. simpl in *. rewrite Hu. simpl. rewrite Hget. simpl.
  rewrite Hopen. unfold set_file. simpl.
  match goal with |- context [write_chunks ?p ?a ?b ?w0] =>
    destruct (write_chunks_run p a b w0)
      as (w' & Hrun & Hout & Hreq & Hvis & Hcalls & _)
  end.
  rewrite Hrun, Hbody, isinstance_Exception. simpl in *.
  eexists. split; [done|]. simpl. by rewrite Hout, Hreq, Hvis, Hcalls.
Qed.

Lemma grows_refl {A} (l : list A) : exists more, l = l ++ more.
Proof. exists []. by rewrite app_nil_r. Qed.

Lemma grows_one {A} (l : list A) x : exists more, l ++ [x] = l ++ more.
Proof. by exists [x]. Qed.

Lemma grows_trans {A} (l1 l2 l3 : list A) :
  (exists more, l2 = l1 ++ more) -> (exists more, l3 = l2 ++ more) ->
  exists more, l3 = l1 ++ more.
Proof. intros [a ->] [b ->]. exists (a ++ b). by rewrite app_assoc. Qed.

(** [download_image] never raises; it returns [None] or the clean file
    name, visits no page, notes one call and only adds to the output. *)
Lemma download_image_total env url folder filename w :
  exists v w',
    download_image env url folder filename w = (Ok v, w')
    /\ (v = VNone \/ v = VStr (clean_filename filename +:+ ".jpg"))
    /\ visited w' = visited w
    /\ fetch_calls w' = fetch_calls w ++ [(url, folder, filename)]
    /\ exists more, stdout w' = stdout w ++ more.
Proof.
  destruct (falsy url) eqn:Hu.
  { eexists _, _. split; [by apply download_absent|].
    split_and!; simpl; auto using grows_refl. }
  destruct url as [u|]; [|done].
  destruct (http_get env (length (requests w)) u) as [st b|e] eqn:Hget.
  2:{ eexists _, _. split; [by eapply download_raise|].
      split_and!; simpl; auto using grows_one. }
  destruct (Z.eq_dec st 200) as [->|Hst].
  2:{ eexists _, _. split; [by eapply download_status|].
      split_and!; simpl; auto using grows_refl. }
  destruct (open_error env
              (os_path_join folder (clean_filename filename +:+ ".jpg")))
    as [e|] eqn:Hopen.
  { eexists _, _. split; [by eapply download_open_error|].
    split_and!; simpl; auto using grows_one. }
  destruct (body_error b) as [e|] eqn:Hbody.
  - destruct (download_stream_error env u folder filename w b e)
      as (w' & Hrun & Hout & _ & Hvis & Hcalls); try done.
    eexists _, _. split; [exact Hrun|].
    split_and!; auto. rewrite Hout. apply grows_one.
  - eexists _, _. split; [by eapply download_stored|].
    split_and!; simpl; auto using grows_refl.
Qed.

(** ** The fields of a listing node *)

Lemma extract_title_ok item w t w' :
  extract_title item w = (Ok t, w') ->
  w' = w
  /\ ((absent (h2_of item) /\ t = "N/A")
      \/ exists el, h2_of item = Ok el /\ t = PyStr.strip (text el)).
Proof.
  unfold extract_title, try_except, bind, lift, ret, h2_of, absent.
  destruct (find_element item TAG_NAME "h2") as [el|e]; simpl.
  - intros [= <- <-]. split; [done|]. right. by exists el.
  - destruct (isinstance e NoSuchElementException) eqn:He; [|done].
    intros [= <- <-]. split; [done|]. left. split; [|done]. by exists e.
Qed.

Lemma extract_price_ok item w p w' :
  extract_price item w = (Ok p, w') ->
  w' = w
  /\ ((absent (whole_of item) /\ p = "N/A")
      \/ (exists a, whole_of item = Ok a /\ absent (fraction_of item)
                    /\ p = "N/A")
      \/ exists a b, whole_of item = Ok a /\ fraction_of item = Ok b
                     /\ p = "$" +:+ text a +:+ "." +:+ text b).
Proof.
  unfold extract_price, try_except, bind, lift, ret, whole_of, fraction_of,
    absent.
  destruct (find_element item CSS_SELECTOR "span.a-price-whole") as [a|e];
    simpl.
  - destruct (find_element item CSS_SELECTOR "span.a-price-fraction")
      as [b|e]; simpl.
    + intros [= <- <-]. split; [done|]. right. right. by exists a, b.
    + destruct (isinstance e NoSuchElementException) eqn:He; [|done].
      intros [= <- <-]. split; [done|]. right. left. exists a.
      split; [done|]. split; [|done]. by exists e.
  - destruct (isinstance e NoSuchElementException) eqn:He; [|done].
    intros [= <- <-]. split; [done|]. left. split; [|done]. by exists e.
Qed.

Lemma extract_rating_ok item w g w' :
  extract_rating item w = (Ok g, w') ->
  w' = w
  /\ ((absent (icon_of item) /\ g = "N/A")
      \/ exists el s t, icon_of item = Ok el
                        /\ get_attribute el "innerHTML" = Some s
                        /\ PyStr.split " " s = g :: t).
Proof.
  unfold extract_rating, try_except, bind, lift, ret, icon_of, absent.
  destruct (find_element item CSS_SELECTOR "span.a-icon-alt") as [el|e];
    simpl.
  - destruct (get_attribute el "innerHTML") as [s|] eqn:Hs; simpl; [|done].
    destruct (PyStr.split " " s) as [|h t] eqn:Hsplit; simpl; [done|].
    intros [= <- <-]. split; [done|]. right. by exists el, s, t.
  - destruct (isinstance e NoSuchElementException) eqn:He; [|done].
    intros [= <- <-]. split; [done|]. left. split; [|done]. by exists e.
Qed.

Lemma extract_image_url_ok item w u w' :
  extract_image_url item w = (Ok u, w') ->
  w' = w
  /\ ((absent (img_of item) /\ u = None)
      \/ exists el, img_of item = Ok el /\ u = get_attribute el "src").
Proof.
  unfold extract_image_url, try_except, bind, lift, ret, img_of, absent.
  destruct (find_element item CSS_SELECTOR "img.s-image") as [el|e]; simpl.
  - intros [= <- <-]. split; [done|]. right. by exists el.
  - destruct (isinstance e NoSuchElementException) eqn:He; [|done].
    intros [= <- <-]. split; [done|]. left. split; [|done]. by exists e.
Qed.

(** A missing element never makes a field's extraction raise. *)
Lemma extract_title_total item w :
  found_or_absent (h2_of item) -> exists t, extract_title item w = (Ok t, w).
Proof.
  unfold extract_title, try_except, bind, lift, ret, h2_of.
  intros [[el ->]|(e & -> & He)]; simpl; [by eexists|].
  rewrite He. by eexists.
Qed.

Lemma extract_price_total item w :
  found_or_absent (whole_of item) -> found_or_absent (fraction_of item) ->
  exists p, extract_price item w = (Ok p, w).
Proof.
  unfold extract_price, try_except, bind, lift, ret, whole_of, fraction_of.
  intros [[a ->]|(e & -> & He)]; simpl.
  - intros [[b ->]|(e & -> & He)]; simpl; [by eexists|].
    rewrite He. by eexists.
  - intros _. rewrite He. by eexists.
Qed.

Lemma extract_rating_total item w :
  found_or_absent (icon_of item) ->
  (forall el, icon_of item = Ok el ->
              is_Some (get_attribute el "innerHTML")) ->
  exists g, extract_rating item w = (Ok g, w).
Proof.
  unfold extract_rating, try_except, bind, lift, ret, icon_of.
  intros [[el ->]|(e & -> & He)] Hhtml; simpl.
  - destruct (Hhtml el eq_refl) as [s ->]. simpl.
    destruct (PyStrFacts.split_head " " s) as (h & t & -> & _). by eexists.
  - rewrite He. by eexists.
Qed.

Lemma extract_image_url_total item w :
  found_or_absent (img_of item) ->
  exists u, extract_image_url item w = (Ok u, w).
Proof.
  unfold extract_image_url, try_except, bind, lift, ret, img_of.
  intros [[el ->]|(e & -> & He)]; simpl; [by eexists|].
  rewrite He. by eexists.
Qed.

(** How [extract_item] comes to a record: the four fields are read
    without touching the world, then the image is fetched if there is
    one. *)
Lemma extract_item_ok env item n w r w' :
  extract_item env item n w = (Ok r, w') <->
  exists t p g u f,
    extract_title item w = (Ok t, w)
    /\ extract_price item w = (Ok p, w)
    /\ extract_rating item w = (Ok g, w)
    /\ extract_image_url item w = (Ok u, w)
    /\ r = record t p g f
    /\ ((falsy u = true /\ f = VStr "N/A" /\ w' = w)
        \/ (falsy u = false
            /\ download_image env u "images" (image_name t n) w
               = (Ok f, w'))).
Proof.
  destruct (pure_extract_title item) as [rt Ht].
  destruct (pure_extract_price item) as [rp Hp].
  destruct (pure_extract_rating item) as [rg Hg].
  destruct (pure_extract_image_url item) as [ru Hu].
  unfold extract_item, bind. rewrite Ht, Hp, Hg, Hu. split.
  - destruct rt as [t|]; [|done]. destruct rp as [p|]; [|done].
    destruct rg as [g|]; [|done]. destruct ru as [u|]; [|done].
    destruct (falsy u) eqn:Hf; simpl.
    + intros [= <- <-]. exists t, p, g, u, (VStr "N/A"). by auto 10.
    + destruct (download_image _ _ _ _ _) as [[f|e] w1] eqn:Hd; [|done].
      intros [= <- <-]. exists t, p, g, u, f.
      repeat split; try done. right. by auto.
  - intros (t & p & g & u & f & [= ->] & [= ->] & [= ->] & [= ->] & -> & H).
    destruct H as [(Hf & -> & ->)|(Hf & Hd)]; rewrite Hf; simpl; [done|].
    unfold image_name in Hd. by rewrite Hd.
Qed.

(** When [extract_item] raises, it is a field that raised: in every world
    and at every index it raises the same, and changes nothing. *)
Lemma extract_item_raise env item n w e w' :
  extract_item env item n w = (Raise e, w') ->
  w' = w /\ forall n2 w2, extract_item env item n2 w2 = (Raise e, w2).
Proof.
  destruct (pure_extract_title item) as [rt Ht].
  destruct (pure_extract_price item) as [rp Hp].
  destruct (pure_extract_rating item) as [rg Hg].
  destruct (pure_extract_image_url item) as [ru Hu].
  unfold extract_item, bind. rewrite Ht, Hp, Hg, Hu.
  assert (Hall : forall n2 w2 e2,
    (rt = Raise e2 \/ (exists t, rt = Ok t) /\
       (rp = Raise e2 \/ (exists p, rp = Ok p) /\
          (rg = Raise e2 \/ (exists g, rg = Ok g) /\ ru = Raise e2))) ->
    extract_item env item n2 w2 = (Raise e2, w2)).
  { intros n2 w2 e2 H. unfold extract_item, bind. rewrite Ht, Hp, Hg, Hu.
    destruct H as [->|[[t ->] [->|[[p ->] [->|[[g ->] ->]]]]]]; done. }
  destruct rt as [t|e1]; [|intros [= <- <-]; split; [done|]; intros;
                           apply Hall; by left].
  destruct rp as [p|e1]; [|intros [= <- <-]; split; [done|]; intros;
                           apply Hall; right; split; [by eexists|by left]].
  destruct rg as [g|e1];
    [|intros [= <- <-]; split; [done|]; intros; apply Hall; right;
      split; [by eexists|]; right; split; [by eexists|by left]].
  destruct ru as [u|e1];
    [|intros [= <- <-]; split; [done|]; intros; apply Hall; right;
      split; [by eexists|]; right; split; [by eexists|]; right;
      split; [by eexists|done]].
  destruct (falsy u); simpl; [done|].
  destruct (download_image_total env u "images"
              (safe_title t +:+ "_" +:+ PyStr.of_nat n) w)
    as (v & w1 & -> & _). done.
Qed.

Lemma absent_not_found r el : absent r -> r = Ok el -> False.
Proof. intros (e & -> & _). done. Qed.

Lemma download_fails_None env u folder filename w v w' :
  falsy (Some u) = false ->
  download_fails (http_get env (length (requests w)) u) ->
  download_image env (Some u) folder filename w = (Ok v, w') ->
  v = VNone.
Proof.
  intros Hu Hfail.
  destruct (http_get env (length (requests w)) u) as [st b|e] eqn:Hget.
  2:{ erewrite download_raise by done. by intros [= <- _]. }
  destruct (Z.eq_dec st 200) as [->|Hst].
  2:{ erewrite download_status by done. by intros [= <- _]. }
  destruct Hfail as [?|[e He]]; [done|].
  destruct (open_error env
              (os_path_join folder (clean_filename filename +:+ ".jpg")))
    as [e'|] eqn:Hopen.
  { erewrite download_open_error by done. by intros [= <- _]. }
  destruct (download_stream_error env u folder filename w b e)
    as (w1 & -> & _); try done. by intros [= <- _].
Qed.

(** A node with no image source is read without a call of
    [download_image]: the world is left as it was. *)
Lemma no_image_source_run env item n w out w' :
  no_image_source item ->
  extract_item env item n w = (out, w') ->
  w' = w
  /\ forall r, out = Ok r ->
               dict_get r "image_filename" = Some (VStr "N/A").
Proof.
  intros Hsrc Hrun. destruct out as [r|e].
  2:{ apply extract_item_raise in Hrun as [-> _]. done. }
  apply extract_item_ok in Hrun
    as (t & p & g & u & f & _ & _ & _ & Hu & -> & Hf).
  apply extract_image_url_ok in Hu as [_ Hu].
  assert (falsy u = true) as Hfalsy.
  { destruct Hu as [[_ ->]|(el & Hel & ->)]; [done|].
    destruct Hsrc as [Ha|(el' & Hel' & Hf')];
      [by destruct (absent_not_found _ _ Ha Hel)|].
    rewrite Hel in Hel'. by injection Hel' as <-. }
  destruct Hf as [(_ & -> & ->)|[Hf _]]; [|congruence].
  split; [done|]. by intros ? [= <-].
Qed.

(** ** The claims about one listing node *)

(** C1. Whenever the extraction of a listing node completes, the record
    has exactly the keys title, price, rating and image_filename, in that
    order, and each field is settled by its own elements alone: it is the
    value read from them when they are there, and its not-found marker
    when they are missing, whatever the other fields are. And a node from
    which any of the fields is missing still yields its record: a missing
    element stops neither the other fields nor the record. *)
Theorem extract_item_four_fields env item n w :
  (forall r w', extract_item env item n w = (Ok r, w') ->
     keys r = ["title"; "price"; "rating"; "image_filename"]
     /\ exists t p g f,
          r = record t p g f
          /\ ((absent (h2_of item) /\ t = "N/A")
              \/ exists el, h2_of item = Ok el /\ t = PyStr.strip (text el))
          /\ ((absent (whole_of item) /\ p = "N/A")
              \/ (exists a, whole_of item = Ok a
                            /\ absent (fraction_of item) /\ p = "N/A")
              \/ exists a b, whole_of item = Ok a /\ fraction_of item = Ok b
                             /\ p = "$" +:+ text a +:+ "." +:+ text b)
          /\ ((absent (icon_of item) /\ g = "N/A")
              \/ exists el s rest, icon_of item = Ok el
                   /\ get_attribute el "innerHTML" = Some s
                   /\ PyStr.split " " s = g :: rest)
          /\ ((no_image_source item /\ f = VStr "N/A")
              \/ exists el u, img_of item = Ok el
                   /\ get_attribute el "src" = Some u /\ u <> ""
                   /\ (f = VNone
                       \/ f = VStr (clean_filename (image_name t n)
                                    +:+ ".jpg"))))
  /\ (missing_only item ->
      exists r w', extract_item env item n w = (Ok r, w')).
Proof.
  split.
  - intros r w' (t & p & g & u & f & Ht & Hp & Hg & Hu & -> & Hf)%extract_item_ok.
    split; [done|]. exists t, p, g, f. split; [done|].
    apply extract_title_ok in Ht as [_ Ht].
    apply extract_price_ok in Hp as [_ Hp].
    apply extract_rating_ok in Hg as [_ Hg].
    apply extract_image_url_ok in Hu as [_ Hu].
    split; [exact Ht|]. split; [exact Hp|]. split; [exact Hg|].
    destruct Hf as [(Hfalsy & -> & _)|[Hfalsy Hd]].
    + left. split; [|done].
      destruct Hu as [[Ha _]|(el & Hel & ->)]; [by left|right; by exists el].
    + right. destruct Hu as [[_ ->]|(el & Hel & ->)]; [done|].
      destruct (get_attribute el "src") as [s|] eqn:Hsrc; [|done].
      exists el, s. split; [done|]. split; [done|].
      split; [by apply String.eqb_neq|].
      destruct (download_image_total env (Some s) "images" (image_name t n) w)
        as (v & w1 & Hrun & Hv & _).
      rewrite Hrun in Hd. by injection Hd as <- <-.
  - intros (H2 & Hw & Hfr & Hi & Him & Hhtml).
    destruct (extract_title_total item w H2) as [t Ht].
    destruct (extract_price_total item w Hw Hfr) as [p Hp].
    destruct (extract_rating_total item w Hi Hhtml) as [g Hg].
    destruct (extract_image_url_total item w Him) as [u Hu].
    destruct (falsy u) eqn:Hf.
    + exists (record t p g (VStr "N/A")), w. apply extract_item_ok.
      exists t, p, g, u, (VStr "N/A"). by auto 10.
    + destruct (download_image_total env u "images" (image_name t n) w)
        as (v & w1 & Hrun & _).
      exists (record t p g v), w1. apply extract_item_ok.
      exists t, p, g, u, v. by auto 10.
Qed.

(** C3. In the record of a listing node the price is ["N/A"] whenever
    the whole part or the fraction is missing, and ["$" whole "." fraction]
    when both are there; it is never built from one of them alone. *)
Theorem price_whole_and_fraction_or_sentinel env item n w r w' :
  extract_item env item n w = (Ok r, w') ->
  exists p,
    dict_get r "price" = Some (VStr p)
    /\ (absent (whole_of item) \/ absent (fraction_of item) -> p = "N/A")
    /\ (forall a b, whole_of item = Ok a -> fraction_of item = Ok b ->
                    p = "$" +:+ text a +:+ "." +:+ text b)
    /\ (p = "N/A"
        \/ exists a b, whole_of item = Ok a /\ fraction_of item = Ok b
                       /\ p = "$" +:+ text a +:+ "." +:+ text b).
Proof.
  intros (t & p & g & u & f & _ & Hp & _ & _ & -> & _)%extract_item_ok.
  exists p. split; [done|].
  apply extract_price_ok in Hp as [_ Hp].
  destruct Hp as [[Hw ->]|[(a & Ha & Hfr & ->)|(a & b & Ha & Hb & ->)]].
  - split; [done|]. split; [|by left].
    intros a b Ha _. by destruct (absent_not_found _ _ Hw Ha).
  - split; [done|]. split; [|by left].
    intros a' b _ Hb. by destruct (absent_not_found _ _ Hfr Hb).
  - split; [|split].
    + intros [Hw|Hfr]; [by destruct (absent_not_found _ _ Hw Ha)|
                        by destruct (absent_not_found _ _ Hfr Hb)].
    + intros a' b'. rewrite Ha, Hb. by intros [= <-] [= <-].
    + right. by exists a, b.
Qed.

(** C7. In the record of a listing node the rating is what stands before
    the first space of the icon's alternative text, whatever that text
    is, and ["N/A"] when the icon is missing. *)
Theorem rating_first_token_or_sentinel env item n w r w' :
  extract_item env item n w = (Ok r, w') ->
  exists g,
    dict_get r "rating" = Some (VStr g)
    /\ (absent (icon_of item) -> g = "N/A")
    /\ (forall el s, icon_of item = Ok el ->
          get_attribute el "innerHTML" = Some s ->
          PyStr.contains " " g = false
          /\ (s = g \/ exists rest, s = g +:+ String " " rest)).
Proof.
  intros (t & p & g & u & f & _ & _ & Hg & _ & -> & _)%extract_item_ok.
  exists g. split; [done|].
  apply extract_rating_ok in Hg as [_ Hg].
  destruct Hg as [[Hi ->]|(el & s & rest & Hel & Hs & Hsplit)].
  - split; [done|]. intros el s Hel _.
    by destruct (absent_not_found _ _ Hi Hel).
  - split; [intros Hi; by destruct (absent_not_found _ _ Hi Hel)|].
    intros el' s'. rewrite Hel. intros [= <-]. rewrite Hs. intros [= <-].
    destruct (PyStrFacts.split_head " " s) as (h & tl & Hh & Hno & Hcase).
    rewrite Hsplit in Hh. injection Hh as -> ->. split; [done|].
    destruct Hcase as [[_ ->]|?]; by auto.
Qed.

(** C6. A listing node with no image source leaves the world as it was:
    [download_image] is not called and no request is sent, and the image
    field of its record is ["N/A"]; and [download_image] itself, given no
    URL, returns [None] at once, without a request, a file or a line of
    output. *)
Theorem no_image_source_no_fetch env :
  (forall item n w out w',
     no_image_source item ->
     extract_item env item n w = (out, w') ->
     w' = w
     /\ forall r, out = Ok r ->
                  dict_get r "image_filename" = Some (VStr "N/A"))
  /\ (forall url folder filename w,
        falsy url = true ->
        exists w',
          download_image env url folder filename w = (Ok VNone, w')
          /\ requests w' = requests w /\ files w' = files w
          /\ stdout w' = stdout w).
Proof.
  split.
  - intros item n w out w'. apply no_image_source_run.
  - intros url folder filename w Hu. eexists.
    split; [by apply download_absent|]. done.
Qed.

(** C10. When a listing node has an image source and the download does
    not succeed, the image field of its record is [None]; that is not
    the ["N/A"] of a record whose node has no image source. *)
Theorem failed_download_is_None env item n w r w' el u :
  img_of item = Ok el ->
  get_attribute el "src" = Some u ->
  u <> "" ->
  download_fails (http_get env (length (requests w)) u) ->
  extract_item env item n w = (Ok r, w') ->
  dict_get r "image_filename" = Some VNone
  /\ VNone <> VStr "N/A"
  /\ forall item2 n2 w2 r2 w2',
       no_image_source item2 ->
       extract_item env item2 n2 w2 = (Ok r2, w2') ->
       dict_get r2 "image_filename" <> dict_get r "image_filename".
Proof.
  intros Hel Hsrc Hne Hfail Hrun.
  assert (falsy (Some u) = false) as Hu by by apply String.eqb_neq.
  apply extract_item_ok in Hrun
    as (t & p & g & u' & f & _ & _ & _ & Hurl & -> & Hf).
  apply extract_image_url_ok in Hurl as [_ Hurl].
  assert (u' = Some u) as ->.
  { destruct Hurl as [[Ha _]|(el' & Hel' & ->)];
      [by destruct (absent_not_found _ _ Ha Hel)|].
    rewrite Hel in Hel'. injection Hel' as <-. done. }
  destruct Hf as [(Hf & _)|[_ Hd]]; [congruence|].
  apply download_fails_None in Hd as ->; [|done..].
  split; [done|]. split; [done|].
  intros item2 n2 w2 r2 w2' Hno Hrun2.
  destruct (no_image_source_run env item2 n2 w2 (Ok r2) w2' Hno Hrun2)
    as [_ H].
  rewrite (H r2 eq_refl). done.
Qed.

(** ** The claims about [download_image] *)

(** C5, as the code has it. Given a URL, [download_image] never raises,
    and nothing but a response with status 200 makes it return a file
    name. When the GET raises (a timeout, a transport error) it returns
    [None], writes no file and prints a diagnostic; so it does when a
    response with status 200 cannot be stored. When the status is another
    one it returns [None] and writes no file, and prints nothing. *)
Theorem download_image_outcomes env u folder filename w :
  u <> "" ->
  exists v w',
    download_image env (Some u) folder filename w = (Ok v, w')
    /\ (v <> VNone ->
        exists b, http_get env (length (requests w)) u = HttpResponse 200 b)
    /\ (forall e, http_get env (length (requests w)) u = HttpRaise e ->
          v = VNone /\ files w' = files w
          /\ stdout w' = stdout w ++ [diagnostic u e])
    /\ (forall st b,
          http_get env (length (requests w)) u = HttpResponse st b ->
          st <> 200 ->
          v = VNone /\ files w' = files w /\ stdout w' = stdout w)
    /\ (forall b,
          http_get env (length (requests w)) u = HttpResponse 200 b ->
          v = VNone ->
          exists e, stdout w' = stdout w ++ [diagnostic u e]).
Proof.
  intros Hne.
  assert (falsy (Some u) = false) as Hu by by apply String.eqb_neq.
  destruct (http_get env (length (requests w)) u) as [st b|e] eqn:Hget.
  2:{ eexists _, _. split; [by eapply download_raise|].
      split_and!; try done. by intros e' [= <-]. }
  destruct (Z.eq_dec st 200) as [->|Hst].
  2:{ eexists _, _. split; [by eapply download_status|].
      split_and!; try done. by intros b' [= -> _]. }
  assert (forall st' b', HttpResponse 200 b = HttpResponse st' b' ->
                         st' <> 200 -> False) as Hother.
  { by intros st' b' [= <- _]. }
  destruct (open_error env
              (os_path_join folder (clean_filename filename +:+ ".jpg")))
    as [e|] eqn:Hopen.
  { eexists _, _. split; [by eapply download_open_error|].
    split_and!; try done.
    - intros st' b' H1 H2. by destruct (Hother st' b' H1 H2).
    - intros _ _ _. by exists e. }
  destruct (body_error b) as [e|] eqn:Hbody.
  - destruct (download_stream_error env u folder filename w b e)
      as (w' & Hrun & Hout & _); try done.
    eexists _, _. split; [exact Hrun|].
    split_and!; try done.
    + intros st' b' H1 H2. by destruct (Hother st' b' H1 H2).
    + intros _ _ _. by exists e.
  - eexists _, _. split; [by eapply download_stored|].
    split_and!; try done.
    + intros _. by exists b.
    + intros st' b' H1 H2. by destruct (Hother st' b' H1 H2).
Qed.

(** C5, as it is stated, fails where the server answers 404: [None] is
    returned and no file is written, but nothing is printed. *)
Lemma status_404_prints_nothing :
  http_get Sample.env_404 0 "http://img/A" = HttpResponse 404 BodyEnd
  /\ download_image Sample.env_404 (Some "http://img/A") "images" "A_0"
       Sample.w0
     = (Ok VNone, Sample.w_sent "A")
  /\ stdout (Sample.w_sent "A") = stdout Sample.w0
  /\ files (Sample.w_sent "A") = files Sample.w0.
Proof. repeat split. Qed.

Lemma kept_not_slash s :
  PyStr.all keep s = true -> PyStr.startswith "/" (s +:+ ".jpg") = false.
Proof.
  destruct s as [|c s]; [done|]. simpl. intros [Hc _]%andb_prop.
  destruct (Ascii.eqb_spec c "/") as [->|]; [|done]. by vm_compute in Hc.
Qed.

Lemma os_path_join_longer a b :
  a <> "" -> PyStr.startswith "/" b = false -> os_path_join a b <> b.
Proof.
  intros Ha Hb. unfold os_path_join. rewrite Hb.
  assert (0 < String.length a)%nat as Hlen.
  { destruct a; [done|]. simpl. lia. }
  intros H. apply (f_equal String.length) in H.
  destruct (_ || _); rewrite !PyStrFacts.length_append in H; simpl in H; lia.
Qed.

Lemma keep_retained c : keep c = retained c.
Proof.
  unfold keep, retained. simpl.
  by rewrite orb_false_r, <- !orb_assoc.
Qed.

Lemma filter_ext p q s :
  (forall c, p c = q c) -> PyStr.filter p s = PyStr.filter q s.
Proof.
  intros Hpq. induction s as [|c s IH]; simpl; [done|].
  by rewrite Hpq, IH.
Qed.

Lemma all_ext p q s :
  (forall c, p c = q c) -> PyStr.all p s = PyStr.all q s.
Proof.
  intros Hpq. induction s as [|c s IH]; simpl; [done|].
  by rewrite Hpq, IH.
Qed.

(** C8. When the download succeeds, [download_image] returns the desired
    name with its letters, digits, spaces, periods and underscores and
    nothing else, in their order, without the white space at its end and
    with [".jpg"] after it; the bytes are stored under that name in the
    folder; what is returned is the name and not the path. *)
Theorem download_image_returns_clean_name env u folder filename w b :
  u <> "" ->
  http_get env (length (requests w)) u = HttpResponse 200 b ->
  open_error env (os_path_join folder (clean_filename filename +:+ ".jpg"))
  = None ->
  body_error b = None ->
  exists w' name tail,
    download_image env (Some u) folder filename w
    = (Ok (VStr (name +:+ ".jpg")), w')
    /\ files w' !! os_path_join folder (name +:+ ".jpg")
       = Some (Bytes (body_bytes b))
    /\ PyStr.filter retained filename = name +:+ tail
    /\ PyStr.all PyStr.isspace tail = true
    /\ (forall c, PyStr.last name = Some c -> PyStr.isspace c = false)
    /\ PyStr.all retained name = true
    /\ (folder <> "" -> os_path_join folder (name +:+ ".jpg")
                        <> name +:+ ".jpg").
Proof.
  intros Hne Hget Hopen Hbody.
  assert (falsy (Some u) = false) as Hu by by apply String.eqb_neq.
  assert (PyStr.all keep (clean_filename filename) = true) as Hkeep.
  { apply PyStrFacts.all_rstrip, PyStrFacts.all_filter. }
  destruct (PyStrFacts.rstrip_suffix (PyStr.filter keep filename))
    as (tail & Hsuffix & Htail).
  eexists _, (clean_filename filename), tail.
  split; [by eapply download_stored|]. simpl.
  split; [by rewrite lookup_insert_eq|].
  split; [by rewrite <- (filter_ext keep retained _ keep_retained)|].
  split; [done|].
  split; [intros c; apply PyStrFacts.rstrip_last|].
  split; [by rewrite <- (all_ext keep retained _ keep_retained)|].
  intros Hfolder. apply os_path_join_longer; [done|]. by apply kept_not_slash.
Qed.

(** ** Examples *)

Lemma missing_only_partial : missing_only Sample.partial.
Proof.
  assert (absent (Sample.missing (A := WebElement))) as Ha.
  { eexists. by split. }
  repeat split; try (by right); try (by left; eexists).
  intros el [= <-]. by eexists.
Defined.

Lemma extract_item_four_fields_witness :
  missing_only Sample.partial
  /\ exists r w',
       extract_item Sample.env_ok Sample.partial 0 Sample.w0 = (Ok r, w')
       /\ dict_get r "title" = Some (VStr "N/A")
       /\ dict_get r "rating" = Some (VStr "4.5").
Proof.
  split; [exact missing_only_partial|].
  destruct (extract_item_four_fields Sample.env_ok Sample.partial 0
              Sample.w0) as [Hfields Hsome].
  destruct (Hsome missing_only_partial) as (r & w' & Hrun).
  exists r, w'. split; [exact Hrun|].
  destruct (Hfields r w' Hrun)
    as (_ & t & p & g & f & -> & Ht & _ & Hg & _).
  split.
  - destruct Ht as [[_ ->]|(el & Hel & _)]; [reflexivity|discriminate Hel].
  - destruct Hg as [[(e & He & _) _]|(el & s & rest & Hel & Hs & Hsplit)];
      [discriminate He|].
    injection Hel as <-. injection Hs as <-.
    injection Hsplit as <- _. reflexivity.
Defined.

Lemma price_whole_and_fraction_or_sentinel_witness :
  exists p,
    dict_get (record "N/A" "N/A" "4.5" (VStr "N/A")) "price" = Some (VStr p)
    /\ p = "N/A".
Proof.
  destruct (price_whole_and_fraction_or_sentinel Sample.env_ok Sample.partial
              0 Sample.w0 (record "N/A" "N/A" "4.5" (VStr "N/A")) Sample.w0
              eq_refl) as (p & Hp & Hna & _).
  exists p. split; [exact Hp|]. apply Hna. right. eexists. by split.
Defined.

Lemma rating_first_token_or_sentinel_witness :
  exists g,
    dict_get (record "A" "$12.99" "4.5" VNone) "rating" = Some (VStr g)
    /\ PyStr.contains " " g = false.
Proof.
  destruct (rating_first_token_or_sentinel Sample.env_404 (Sample.full "A")
              0 Sample.w0 (record "A" "$12.99" "4.5" VNone)
              (Sample.w_sent "A") eq_refl) as (g & Hg & _ & Hs).
  exists g. split; [exact Hg|].
  exact (proj1 (Hs (Sample.icon "4.5 out of 5 stars") "4.5 out of 5 stars"
                  eq_refl eq_refl)).
Defined.

Lemma failed_download_is_None_witness :
  dict_get (record "A" "$12.99" "4.5" VNone) "image_filename" = Some VNone.
Proof.
  refine (proj1 (failed_download_is_None Sample.env_404 (Sample.full "A")
                   0 Sample.w0 (record "A" "$12.99" "4.5" VNone)
                   (Sample.w_sent "A") (Sample.img "http://img/A")
                   "http://img/A" eq_refl eq_refl _ _ eq_refl)).
  - discriminate.
  - left. discriminate.
Defined.

Lemma download_image_outcomes_witness :
  exists v w',
    download_image Sample.env_404 (Some "http://img/A") "images" "A_0"
      Sample.w0 = (Ok v, w')
    /\ v = VNone /\ stdout w' = stdout Sample.w0.
Proof.
  destruct (download_image_outcomes Sample.env_404 "http://img/A" "images"
              "A_0" Sample.w0) as (v & w' & Hrun & _ & _ & Hst & _).
  - discriminate.
  - exists v, w'. split; [exact Hrun|].
    destruct (Hst 404 BodyEnd eq_refl) as (Hv & _ & Hout).
    + discriminate.
    + by split.
Defined.

Lemma download_image_returns_clean_name_witness :
  exists w' name tail,
    download_image Sample.env_ok (Some "http://img/A") "images"
      "My: Title/x%*<>?|#  _3  " Sample.w0
    = (Ok (VStr (name +:+ ".jpg")), w')
    /\ name +:+ ".jpg" = "My Titlex  _3.jpg"
    /\ files w' !! os_path_join "images" (name +:+ ".jpg")
       = Some (Bytes "abcd")
    /\ "My Titlex  _3  " = name +:+ tail
    /\ PyStr.all PyStr.isspace tail = true.
Proof.
  destruct (download_image_returns_clean_name Sample.env_ok "http://img/A"
              "images" "My: Title/x%*<>?|#  _3  " Sample.w0 Sample.ok_body)
    as (w' & name & tail & Hrun & Hfile & Hkept & Htail & _);
    try reflexivity.
  - discriminate.
  - exists w', name, tail.
    split; [exact Hrun|]. split; [|split; [exact Hfile|by split]].
    assert (fst (download_image Sample.env_ok (Some "http://img/A") "images"
                   "My: Title/x%*<>?|#  _3  " Sample.w0)
            = Ok (VStr "My Titlex  _3.jpg")) as Hval.
    { vm_compute. reflexivity. }
    rewrite Hrun in Hval. injection Hval as Hval. exact Hval.
Defined.

(** ** The loops of [get_products] *)

Lemma collected_app l1 l2 : collected (l1 ++ l2) = collected l1 ++ collected l2.
Proof.
  induction l1 as [|[r|] l1 IH]; simpl; [done|by rewrite IH|done].
Qed.

Lemma extract_item_world env item n w out w' :
  extract_item env item n w = (out, w') ->
  visited w' = visited w /\ exists more, stdout w' = stdout w ++ more.
Proof.
  destruct out as [r|e].
  - intros (t & p & g & u & f & _ & _ & _ & _ & _ & Hf)%extract_item_ok.
    destruct Hf as [(_ & _ & ->)|[_ Hd]]; [by auto using grows_refl|].
    destruct (download_image_total env u "images" (image_name t n) w)
      as (v & w1 & Hrun & _ & Hvis & _ & Hout).
    rewrite Hrun in Hd. by injection Hd as <- <-.
  - intros [-> _]%extract_item_raise. by auto using grows_refl.
Qed.

(** One listing node adds its record at the end of the list, or is
    skipped with a line of output. *)
Lemma scrape_item_run env item products w :
  exists o w',
    scrape_item env item products w = (Ok (products ++ collected [o]), w')
    /\ yields env item o
    /\ visited w' = visited w
    /\ exists more, stdout w' = stdout w ++ more.
Proof.
  unfold scrape_item, try_except, bind.
  destruct (extract_item env item (length products) w) as [[r|e] w1] eqn:Hrun.
  - apply extract_item_world in Hrun as Hw. destruct Hw as [Hvis Hout].
    exists (Some r), w1. split; [done|]. split; [|done].
    by exists (length products), w, w1.
  - rewrite isinstance_Exception.
    apply extract_item_raise in Hrun as [-> Hall].
    exists None, (logged w (item_error e)). simpl. rewrite app_nil_r.
    split; [done|]. split; [by exists e|]. split; [done|]. apply grows_one.
Qed.

Lemma for_items_run env items products w :
  exists outs w',
    for_items env items products w = (Ok (products ++ collected outs), w')
    /\ Forall2 (yields env) items outs
    /\ visited w' = visited w
    /\ exists more, stdout w' = stdout w ++ more.
Proof.
  revert products w. induction items as [|item items IH]; intros products w.
  - exists [], w. simpl. rewrite app_nil_r.
    split; [done|]. split; [constructor|]. by auto using grows_refl.
  - destruct (scrape_item_run env item products w)
      as (o & w1 & Hrun & Ho & Hvis & Hout).
    destruct (IH (products ++ collected [o]) w1)
      as (outs & w' & Hrest & Hall & Hvis' & Hout').
    exists (o :: outs), w'. simpl. unfold bind. rewrite Hrun, Hrest.
    split; [|split; [by constructor|split; [congruence|]]].
    + destruct o as [r|]; simpl; [by rewrite <- app_assoc|].
      by rewrite app_nil_r.
    + by eapply grows_trans.
Qed.

(** A page whose wait times out: two lines of output, one navigation,
    and the list of records as it was. *)
Lemma scrape_page_timeout env base_url page products w e :
  browser env (length (visited w)) (page_url base_url page) = WaitRaises e ->
  isinstance e TimeoutException = true ->
  scrape_page env base_url page products w
  = (Ok products, logged (arrived w base_url page) (timed_out page)).
Proof.
  intros Hb He. unfold scrape_page, bind, print, navigate, try_except. simpl.
  rewrite Hb. simpl. unfold raise. by rewrite He.
Qed.

Lemma scrape_page_loaded env base_url page products w items :
  browser env (length (visited w)) (page_url base_url page) = Loaded items ->
  scrape_page env base_url page products w
  = for_items env items products (arrived w base_url page).
Proof.
  intros Hb. unfold scrape_page, bind, print, navigate, try_except. simpl.
  by rewrite Hb.
Qed.

Lemma scrape_page_run env base_url page products w :
  page_ok (browser env (length (visited w)) (page_url base_url page)) ->
  exists outs w',
    scrape_page env base_url page products w
    = (Ok (products ++ collected outs), w')
    /\ Forall2 (yields env)
         (find_elements
            (browser env (length (visited w)) (page_url base_url page)))
         outs
    /\ visited w' = visited w ++ [page_url base_url page]
    /\ exists more, stdout w' = stdout w ++ more.
Proof.
  destruct (browser env (length (visited w)) (page_url base_url page))
    as [e|e|items] eqn:Hb; simpl; [done| |].
  - intros He. exists [], (logged (arrived w base_url page) (timed_out page)).
    simpl. rewrite app_nil_r.
    split; [by eapply scrape_page_timeout|]. split; [constructor|].
    split; [done|]. eexists. by rewrite <- app_assoc.
  - intros _.
    destruct (for_items_run env items products (arrived w base_url page))
      as (outs & w' & Hrun & Hall & Hvis & Hout).
    exists outs, w'. erewrite scrape_page_loaded by done.
    split; [done|]. split; [done|]. split; [done|].
    eapply grows_trans; [|exact Hout]. simpl. apply grows_one.
Qed.

Lemma for_pages_run env base_url k : forall a products w,
  pages_ok env base_url (length (visited w)) a k ->
  exists outs w',
    for_pages env base_url (seq a k) products w
    = (Ok (products ++ collected outs), w')
    /\ Forall2 (yields env)
         (page_nodes env base_url (length (visited w)) a k) outs
    /\ visited w' = visited w ++ map (page_url base_url) (seq a k)
    /\ exists more, stdout w' = stdout w ++ more.
Proof.
  induction k as [|k IH]; intros a products w; simpl.
  - intros _. exists [], w. simpl. rewrite !app_nil_r.
    split; [done|]. split; [constructor|]. by auto using grows_refl.
  - intros [Hpage Hrest].
    destruct (scrape_page_run env base_url a products w Hpage)
      as (outs1 & w1 & Hrun1 & Hall1 & Hvis1 & Hout1).
    assert (length (visited w1) = S (length (visited w))) as Hlen.
    { rewrite Hvis1, length_app. simpl. lia. }
    destruct (IH (S a) (products ++ collected outs1) w1)
      as (outs2 & w' & Hrun2 & Hall2 & Hvis2 & Hout2).
    { by rewrite Hlen. }
    exists (outs1 ++ outs2), w'. unfold bind. rewrite Hrun1, Hrun2.
    split; [by rewrite collected_app, app_assoc|].
    split; [rewrite Hlen in Hall2; by apply Forall2_app|].
    split; [rewrite Hvis2, Hvis1; by rewrite <- app_assoc|].
    by eapply grows_trans.
Qed.

(** C2. A run of [get_products] over pages 1 to [pages], none of which
    ends the run, returns the records of the listing nodes in the order
    of the pages and, within a page, of the nodes: node by node, the
    record of the node or nothing when the node is skipped; nothing is
    moved and nothing is dropped for being there already. *)
Theorem get_products_page_then_position env keyword pages w :
  pages_ok env (base_url_of keyword) (length (visited w)) 1 pages ->
  exists outs w',
    get_products env keyword pages w = (Ok (collected outs), w')
    /\ Forall2 (yields env)
         (page_nodes env (base_url_of keyword) (length (visited w)) 1 pages)
         outs.
Proof.
  intros Hok.
  destruct (for_pages_run env (base_url_of keyword) pages 1 [] w Hok)
    as (outs & w' & Hrun & Hall & _).
  exists outs, w'. by split.
Qed.

Lemma for_pages_app env base_url l1 l2 products w :
  for_pages env base_url (l1 ++ l2) products w
  = bind (for_pages env base_url l1 products)
         (fun products' => for_pages env base_url l2 products') w.
Proof.
  revert products w. induction l1 as [|page l1 IH]; intros products w.
  - done.
  - simpl. unfold bind.
    destruct (scrape_page env base_url page products w) as [[p|e] w1];
      [|done].
    rewrite IH. done.
Qed.

Lemma pages_ok_split env base_url k1 k2 : forall i a,
  pages_ok env base_url i a (k1 + k2) ->
  pages_ok env base_url i a k1
  /\ pages_ok env base_url (i + k1) (a + k1) k2.
Proof.
  induction k1 as [|k1 IH]; intros i a; simpl.
  - by rewrite !Nat.add_0_r.
  - intros [Hpage Hrest]. apply IH in Hrest as [H1 H2].
    by rewrite !Nat.add_succ_r.
Qed.

Lemma for_pages_timeout_at env base_url j m w e :
  pages_ok env base_url (length (visited w)) 1 (j + S m) ->
  browser env (length (visited w) + j) (page_url base_url (S j))
  = WaitRaises e ->
  isinstance e TimeoutException = true ->
  exists before w1 result w',
    for_pages env base_url (seq 1 j) [] w = (Ok before, w1)
    /\ scrape_page env base_url (S j) before w1
       = (Ok before, logged (arrived w1 base_url (S j)) (timed_out (S j)))
    /\ for_pages env base_url (seq (S (S j)) m) before
         (logged (arrived w1 base_url (S j)) (timed_out (S j)))
       = (Ok result, w')
    /\ for_pages env base_url (seq 1 (j + S m)) [] w = (Ok result, w')
    /\ visited w' = visited w ++ map (page_url base_url) (seq 1 (j + S m))
    /\ In (timed_out (S j)) (stdout w').
Proof.
  intros Hok Hb He.
  apply pages_ok_split in Hok as [Hj [_ Hm]].
  destruct (for_pages_run env base_url j 1 [] w Hj)
    as (outs1 & w1 & Hrun1 & _ & Hvis1 & _).
  assert (length (visited w1) = (length (visited w) + j)%nat) as Hlen1.
  { by rewrite Hvis1, length_app, length_map, length_seq. }
  assert (scrape_page env base_url (S j) (collected outs1) w1
          = (Ok (collected outs1),
             logged (arrived w1 base_url (S j)) (timed_out (S j)))) as Hpage.
  { eapply scrape_page_timeout; [|done]. by rewrite Hlen1. }
  set (w2 := logged (arrived w1 base_url (S j)) (timed_out (S j))) in *.
  destruct (for_pages_run env base_url m (S (S j)) (collected outs1) w2)
    as (outs2 & w' & Hrun2 & _ & Hvis2 & more & Hout2).
  { simpl. rewrite length_app, Hlen1. simpl.
    by rewrite Nat.add_1_r, (Nat.add_comm 1 j), Nat.add_1_r in *. }
  exists (collected outs1), w1, (collected outs1 ++ collected outs2), w'.
  split; [done|]. split; [done|]. split; [done|]. split; [|split].
  - rewrite seq_app, for_pages_app. unfold bind. rewrite Hrun1. simpl.
    unfold bind. rewrite Hpage. exact Hrun2.
  - rewrite Hvis2, seq_app, map_app. simpl. rewrite Hvis1.
    by rewrite <- !app_assoc.
  - rewrite Hout2. simpl. apply in_or_app. left. apply in_or_app. right.
    by left.
Qed.

(** C4. When the wait on page [k] times out, the time-out is printed,
    the list of records leaves page [k] as it entered it, page [k] is
    visited once, and the pages after it are processed as the others
    are: the run goes through pages 1 to [k-1], page [k], and pages [k+1]
    to [pages], and visits each page once, in this order. *)
Theorem page_timeout_skips_page env keyword pages k w e :
  (1 <= k <= pages)%nat ->
  pages_ok env (base_url_of keyword) (length (visited w)) 1 pages ->
  browser env (length (visited w) + (k - 1))
    (page_url (base_url_of keyword) k) = WaitRaises e ->
  isinstance e TimeoutException = true ->
  exists before w1 result w',
    for_pages env (base_url_of keyword) (seq 1 (k - 1)) [] w
    = (Ok before, w1)
    /\ scrape_page env (base_url_of keyword) k before w1
       = (Ok before,
          logged (arrived w1 (base_url_of keyword) k) (timed_out k))
    /\ for_pages env (base_url_of keyword) (seq (S k) (pages - k)) before
         (logged (arrived w1 (base_url_of keyword) k) (timed_out k))
       = (Ok result, w')
    /\ get_products env keyword pages w = (Ok result, w')
    /\ visited w'
       = visited w ++ map (page_url (base_url_of keyword)) (seq 1 pages)
    /\ In (timed_out k) (stdout w').
Proof.
  intros [Hk1 Hk2] Hok Hb He.
  destruct k as [|j]; [lia|].
  replace (S j - 1)%nat with j in * by lia.
  replace pages with (j + S (pages - S j))%nat in Hok |- * by lia.
  replace (j + S (pages - S j) - S j)%nat with (pages - S j)%nat by lia.
  exact (for_pages_timeout_at env (base_url_of keyword) j (pages - S j)
           w e Hok Hb He).
Qed.

(** ** [save_to_csv] *)

Lemma dict_get_values d :
  NoDup (keys d) ->
  map (fun k => default (VStr "") (dict_get d k)) (keys d) = map snd d.
Proof.
  induction d as [|[k v] d IH]; [done|]. unfold keys in *. simpl.
  intros [Hk Hd]%NoDup_cons. rewrite String.eqb_refl. simpl. f_equal.
  rewrite <- IH by done. apply map_ext_in. intros k' Hin.
  destruct (String.eqb_spec k k') as [->|]; [|done].
  destruct Hk. by apply list_elem_of_In.
Qed.

(** A record whose keys are the field names becomes the row of its
    values. *)
Lemma dict_to_list_values d :
  NoDup (keys d) -> dict_to_list (keys d) d = Ok (map snd d).
Proof.
  intros Hd. unfold dict_to_list.
  replace (forallb _ (keys d)) with true; [by rewrite dict_get_values|].
  symmetry. apply forallb_forall. intros k Hk. apply existsb_exists.
  exists k. split; [done|]. apply String.eqb_refl.
Qed.

Lemma writerows_run path fieldnames products : forall written w,
  NoDup fieldnames ->
  Forall (fun d => keys d = fieldnames) products ->
  files w !! path = Some (Rows written) ->
  writerows path fieldnames written products w
  = (Ok tt,
     mkWorld (stdout w)
       (<[path := Rows (written ++ map (map snd) products)]> (files w))
       (requests w) (visited w) (fetch_calls w)).
Proof.
  induction products as [|d products IH]; intros written w Hnd Hall Hw.
  - simpl. rewrite app_nil_r, insert_id by done. by destruct w.
  - apply Forall_cons in Hall as [Hd Hall]. simpl. unfold bind, lift.
    rewrite <- Hd at 1. rewrite dict_to_list_values by by rewrite Hd.
    unfold set_file at 1. rewrite IH; [|done|done|by simpl; rewrite lookup_insert_eq].
    simpl. by rewrite insert_insert_eq, <- app_assoc.
Qed.

(** C9. Given no records, [save_to_csv] prints a notice and writes no
    file. Given records with the keys of the first one, and a file that
    can be opened, it writes the keys of the first record as the first
    row, then one row per record, in the order of the records, each row
    being the values of the record. *)
Theorem save_to_csv_header_then_rows env filename w :
  (save_to_csv env [] filename w = (Ok tt, logged w "No products to save.")
   /\ files (logged w "No products to save.") = files w)
  /\ (forall first rest,
        NoDup (keys first) ->
        Forall (fun d => keys d = keys first) rest ->
        open_error env filename = None ->
        exists w',
          save_to_csv env (first :: rest) filename w = (Ok tt, w')
          /\ files w'
             = <[filename := Rows (map VStr (keys first)
                                   :: map (map snd) (first :: rest))]>
                 (files w)).
Proof.
  split; [done|]. intros first rest Hnd Hall Hopen.
  unfold save_to_csv, try_except, bind, open_w. rewrite Hopen.
  unfold set_file at 1 2. cbn -[writerows].
  rewrite (writerows_run filename (keys first) (first :: rest));
    [|done|by constructor|by simpl; rewrite lookup_insert_eq].
  simpl. eexists. split; [done|]. simpl.
  by rewrite !insert_insert_eq.
Qed.

(** ** Examples of runs *)

Lemma get_products_page_then_position_witness :
  exists outs w',
    get_products Sample.env_ok "laptop" 2 Sample.w0 = (Ok (collected outs), w')
    /\ Forall2 (yields Sample.env_ok)
         [Sample.full "A"; Sample.full "B"; Sample.full "C"] outs.
Proof.
  apply (get_products_page_then_position Sample.env_ok "laptop" 2 Sample.w0).
  simpl. auto.
Defined.

(** Pages [A, B] and [C] give the records of A, B and C, in this order. *)
Example pages_AB_C :
  fst (get_products Sample.env_ok "laptop" 2 Sample.w0)
  = Ok [record "A" "$12.99" "4.5" (VStr "A_0.jpg");
        record "B" "$12.99" "4.5" (VStr "B_1.jpg");
        record "C" "$12.99" "4.5" (VStr "C_2.jpg")].
Proof. vm_compute. reflexivity. Qed.

(** A listing that is on both pages is recorded twice. *)
Example same_listing_twice :
  fst (get_products Sample.env_twice "laptop" 2 Sample.w0)
  = Ok [record "A" "$12.99" "4.5" (VStr "A_0.jpg");
        record "A" "$12.99" "4.5" (VStr "A_1.jpg")].
Proof. vm_compute. reflexivity. Qed.

(** A populated node and a bare one on one page: two records, the second
    made of not-found markers, and a file of three rows. *)
Example one_page_two_nodes :
  let env := mkEnv (fun _ _ => Loaded [Sample.full "A"; Sample.bare])
                   (fun _ _ => HttpResponse 200 Sample.ok_body)
                   (fun _ => None) in
  let run := get_products env "laptop" 1 Sample.w0 in
  fst run
  = Ok [record "A" "$12.99" "4.5" (VStr "A_0.jpg");
        record "N/A" "N/A" "N/A" (VStr "N/A")]
  /\ match fst run with
     | Ok products =>
         files (snd (save_to_csv env products "products.csv" (snd run)))
         !! "products.csv"
         = Some (Rows [[VStr "title"; VStr "price"; VStr "rating";
                        VStr "image_filename"];
                       [VStr "A"; VStr "$12.99"; VStr "4.5";
                        VStr "A_0.jpg"];
                       [VStr "N/A"; VStr "N/A"; VStr "N/A"; VStr "N/A"]])
     | Raise _ => False
     end.
Proof. vm_compute. split; reflexivity. Qed.

Lemma page_timeout_skips_page_witness :
  exists result w',
    get_products Sample.env_timeout "laptop" 2 Sample.w0 = (Ok result, w')
    /\ In (timed_out 1) (stdout w')
    /\ visited w'
       = map (page_url (base_url_of "laptop")) [1%nat; 2%nat].
Proof.
  destruct (page_timeout_skips_page Sample.env_timeout "laptop" 2 1
              Sample.w0 (mkExn TimeoutException "timeout"))
    as (before & w1 & result & w' & _ & _ & _ & Hrun & Hvis & Hin).
  - split; [apply le_n|apply le_S, le_n].
  - simpl. auto.
  - reflexivity.
  - reflexivity.
  - exists result, w'. split; [exact Hrun|]. split; [exact Hin|exact Hvis].
Defined.

Lemma save_to_csv_header_then_rows_witness :
  exists w',
    save_to_csv Sample.env_ok
      [record "C" "$12.99" "4.5" VNone; record "N/A" "N/A" "N/A" (VStr "N/A")]
      "products.csv" Sample.w0 = (Ok tt, w')
    /\ files w' !! "products.csv"
       = Some (Rows [[VStr "title"; VStr "price"; VStr "rating";
                      VStr "image_filename"];
                     [VStr "C"; VStr "$12.99"; VStr "4.5"; VNone];
                     [VStr "N/A"; VStr "N/A"; VStr "N/A"; VStr "N/A"]]).
Proof.
  destruct (proj2 (save_to_csv_header_then_rows Sample.env_ok "products.csv"
                     Sample.w0)
              (record "C" "$12.99" "4.5" VNone)
              [record "N/A" "N/A" "N/A" (VStr "N/A")])
    as (w' & Hrun & Hfiles).
  - apply (bool_decide_unpack _). vm_compute. exact I.
  - repeat constructor.
  - reflexivity.
  - exists w'. split; [exact Hrun|]. rewrite Hfiles.
    apply lookup_insert_eq.
Defined.

Lemma no_image_source_no_fetch_witness :
  no_image_source Sample.partial
  /\ snd (extract_item Sample.env_ok Sample.partial 0 Sample.w0) = Sample.w0
  /\ exists w',
       download_image Sample.env_ok None "images" "A_0" Sample.w0
       = (Ok VNone, w')
       /\ requests w' = requests Sample.w0.
Proof.
  assert (no_image_source Sample.partial) as Hno.
  { left. eexists. split; reflexivity. }
  destruct (no_image_source_no_fetch Sample.env_ok) as [Hnode Hfetch].
  split; [exact Hno|]. split.
  - exact (proj1 (Hnode Sample.partial 0%nat Sample.w0 _ _ Hno eq_refl)).
  - destruct (Hfetch None "images" "A_0" Sample.w0 eq_refl)
      as (w' & Hrun & Hreq & _).
    exists w'. split; [exact Hrun|exact Hreq].
Defined.

(** * Further properties of the code *)

(** ** What one listing node does to the list and to the world *)

(** The three ways of one turn of the item loop: the node is skipped with
    a line of output; its record is added without a download; its record
    is added after the one download, named after the title and the
    number of records collected so far. *)
Lemma scrape_item_cases env item products w :
  (exists e,
     scrape_item env item products w
     = (Ok products, logged w (item_error e))
     /\ forall n w2, extract_item env item n w2 = (Raise e, w2))
  \/ (exists t p g,
        scrape_item env item products w
        = (Ok (products ++ [record t p g (VStr "N/A")]), w)
        /\ no_image_source item)
  \/ (exists t p g u v w',
        falsy u = false
        /\ download_image env u "images" (image_name t (length products)) w
           = (Ok v, w')
        /\ scrape_item env item products w
           = (Ok (products ++ [record t p g v]), w')).
Proof.
  unfold scrape_item, try_except, bind.
  destruct (extract_item env item (length products) w) as [[r|e] w1] eqn:Hrun.
  - apply extract_item_ok in Hrun
      as (t & p & g & u & f & _ & _ & _ & Hu & -> & Hf).
    right. destruct Hf as [(Hf & -> & ->)|[Hf Hd]].
    + left. exists t, p, g. split; [done|].
      apply extract_image_url_ok in Hu as [_ [[Ha _]|(el & Hel & ->)]];
        [by left|right; by exists el].
    + right. by exists t, p, g, u, f, w1.
  - rewrite isinstance_Exception.
    apply extract_item_raise in Hrun as [-> Hall]. left. by exists e.
Qed.

Section LoopInvariant.

(** A relation between the list and the world before and after, kept
    by every step of the loops, is kept by the loops. *)
Variable env : Env.
Variable R : list dict -> World -> list dict -> World -> Prop.

Hypothesis R_refl : forall p w, R p w p w.
Hypothesis R_trans : forall p1 w1 p2 w2 p3 w3,
  R p1 w1 p2 w2 -> R p2 w2 p3 w3 -> R p1 w1 p3 w3.
Hypothesis R_print : forall p w line, R p w p (logged w line).
Hypothesis R_visit : forall p w base_url page,
  R p w p (arrived w base_url page).
Hypothesis R_plain : forall p w t pr g,
  R p w (p ++ [record t pr g (VStr "N/A")]) w.
Hypothesis R_fetch : forall p w t pr g u v w',
  falsy u = false ->
  download_image env u "images" (image_name t (length p)) w = (Ok v, w') ->
  R p w (p ++ [record t pr g v]) w'.

Lemma scrape_item_keeps item p w :
  exists p' w', scrape_item env item p w = (Ok p', w') /\ R p w p' w'.
Proof.
  destruct (scrape_item_cases env item p w)
    as [(e & -> & _)|[(t & pr & g & -> & _)
                     |(t & pr & g & u & v & w' & Hu & Hd & ->)]];
    eexists _, _; (split; [done|]); eauto.
Qed.

Lemma for_items_keeps items : forall p w,
  exists p' w', for_items env items p w = (Ok p', w') /\ R p w p' w'.
Proof.
  induction items as [|item items IH]; intros p w; simpl.
  - exists p, w. by split.
  - destruct (scrape_item_keeps item p w) as (p1 & w1 & Hrun & H1).
    destruct (IH p1 w1) as (p2 & w2 & Hrest & H2).
    exists p2, w2. unfold bind. rewrite Hrun, Hrest. split; [done|].
    by eapply R_trans.
Qed.

Lemma scrape_page_keeps base_url page p w :
  exists out p' w',
    scrape_page env base_url page p w = (out, w')
    /\ R p w p' w'
    /\ (forall r, out = Ok r -> r = p').
Proof.
  unfold scrape_page, bind, print, navigate. simpl.
  fold (arrived w base_url page).
  destruct (browser env (length (visited w)) (page_url base_url page))
    as [e|e|items]; simpl.
  - eexists _, p, _. split; [done|]. split; [apply R_visit|done].
  - unfold try_except, bind, raise. simpl.
    destruct (isinstance e TimeoutException); simpl.
    + eexists _, p, _. split; [done|].
      split; [|by intros r [= <-]].
      eapply R_trans; [apply (R_visit p w base_url page)|].
    apply (R_print p (arrived w base_url page) (timed_out page)).
    + eexists _, p, _. split; [done|]. split; [apply R_visit|done].
  - unfold try_except, bind. simpl.
    destruct (for_items_keeps items p (arrived w base_url page))
      as (p' & w' & Hrun & H).
    exists (Ok p'), p', w'. split; [done|].
    split; [|by intros r [= <-]].
    eapply R_trans; [apply R_visit|exact H].
Qed.

Lemma for_pages_keeps base_url pages : forall p w,
  exists out p' w',
    for_pages env base_url pages p w = (out, w')
    /\ R p w p' w'
    /\ (forall r, out = Ok r -> r = p').
Proof.
  induction pages as [|page pages IH]; intros p w; simpl.
  - exists (Ok p), p, w. split; [done|]. split; [done|].
    by intros r [= <-].
  - destruct (scrape_page_keeps base_url page p w)
      as (out1 & p1 & w1 & Hrun & H1 & Hout1).
    unfold bind. rewrite Hrun. destruct out1 as [r1|e].
    + rewrite (Hout1 r1 eq_refl).
      destruct (IH p1 w1) as (out & p2 & w2 & Hrest & H2 & Hout).
      exists out, p2, w2. split; [done|]. split; [|done].
      by eapply R_trans.
    + exists (Raise e), p1, w1. by split.
Qed.

Lemma get_products_keeps keyword pages w :
  exists out p' w',
    get_products env keyword pages w = (out, w')
    /\ R [] w p' w'
    /\ (forall r, out = Ok r -> r = p').
Proof. apply for_pages_keeps. Qed.

End LoopInvariant.

(** ** More on [download_image] *)

Lemma write_chunks_files path b : forall acc w,
  files w !! path = Some (Bytes acc) ->
  files (snd (write_chunks path acc b w))
  = <[path := Bytes (acc +:+ body_bytes b)]> (files w).
Proof.
  induction b as [|c rest IH|e]; intros acc w Hw; simpl.
  - by rewrite append_empty_r, insert_id.
  - unfold bind, set_file.
    match goal with |- context [write_chunks path ?a rest ?w0] =>
      specialize (IH a w0); destruct (write_chunks path a rest w0)
        as [[[]|e] w1] eqn:Hrun
    end; simpl in *;
      (rewrite IH by by rewrite lookup_insert_eq);
      by rewrite insert_insert_eq, append_assoc.
  - by rewrite append_empty_r, insert_id.
Qed.

Lemma download_broken_body env u folder filename w b e :
  u <> "" ->
  http_get env (length (requests w)) u = HttpResponse 200 b ->
  open_error env (os_path_join folder (clean_filename filename +:+ ".jpg"))
  = None ->
  body_error b = Some e ->
  download_image env (Some u) folder filename w
  = (Ok VNone,
     mkWorld (stdout w ++ [diagnostic u e])
       (<[os_path_join folder (clean_filename filename +:+ ".jpg")
          := Bytes (body_bytes b)]> (files w))
       (requests w ++ [u]) (visited w)
       (fetch_calls w ++ [(Some u, folder, filename)])).
Proof.
  intros Hne Hget Hopen Hbody.
  assert (falsy (Some u) = false) as Hu by by apply String.eqb_neq.
  unfold download_image, bind, note_fetch, try_except, download_try, bind,
    requests_get, open_w. simpl in *. rewrite Hu. simpl. rewrite Hget. simpl.
  rewrite Hopen. unfold set_file. simpl.
  match goal with |- context [write_chunks ?p ?a ?b ?w0] =>
    destruct (write_chunks_run p a b w0)
      as (w' & Hrun & Hout & Hreq & Hvis & Hcalls & _);
    pose proof (write_chunks_files p b a w0) as Hfiles
  end.
  rewrite Hrun in *. rewrite Hbody, isinstance_Exception. simpl in *.
  rewrite Hfiles by by rewrite lookup_insert_eq.
  rewrite insert_insert_eq, Hout, Hreq, Hvis, Hcalls.
  by change ("" +:+ ?x) with x.
Qed.

Lemma download_image_requests env u folder filename w :
  u <> "" ->
  requests (snd (download_image env (Some u) folder filename w))
  = requests w ++ [u].
Proof.
  intros Hne.
  assert (falsy (Some u) = false) as Hu by by apply String.eqb_neq.
  destruct (http_get env (length (requests w)) u) as [st b|e] eqn:Hget.
  2:{ by erewrite download_raise. }
  destruct (Z.eq_dec st 200) as [->|Hst].
  2:{ by erewrite download_status. }
  destruct (open_error env
              (os_path_join folder (clean_filename filename +:+ ".jpg")))
    as [e|] eqn:Hopen.
  { by erewrite download_open_error. }
  destruct (body_error b) as [e|] eqn:Hbody.
  - by erewrite download_broken_body.
  - by erewrite download_stored.
Qed.

Lemma contains_append c a b :
  PyStr.contains c (a +:+ b) = PyStr.contains c a || PyStr.contains c b.
Proof.
  induction a as [|x a IH]; [done|].
  change (String x a +:+ b) with (String x (a +:+ b)). simpl.
  by rewrite IH, orb_assoc.
Qed.

Lemma all_not_contains p c s :
  p c = false -> PyStr.all p s = true -> PyStr.contains c s = false.
Proof.
  intros Hc. induction s as [|x s IH]; simpl; [done|].
  intros [Hx Hs]%andb_prop. rewrite IH by done.
  destruct (Ascii.eqb_spec x c) as [->|]; [congruence|done].
Qed.

Lemma clean_name_no_slash filename :
  PyStr.contains "/" (clean_filename filename +:+ ".jpg") = false.
Proof.
  rewrite contains_append.
  rewrite (all_not_contains keep); [done|done|].
  apply PyStrFacts.all_rstrip, PyStrFacts.all_filter.
Qed.

Lemma download_image_files env url folder filename w path :
  path <> os_path_join folder (clean_filename filename +:+ ".jpg") ->
  files (snd (download_image env url folder filename w)) !! path
  = files w !! path.
Proof.
  intros Hpath.
  destruct (falsy url) eqn:Hu.
  { by rewrite download_absent. }
  destruct url as [u|]; [|done].
  assert (u <> "") as Hne by by apply String.eqb_neq.
  destruct (http_get env (length (requests w)) u) as [st b|e] eqn:Hget.
  2:{ by erewrite download_raise. }
  destruct (Z.eq_dec st 200) as [->|Hst].
  2:{ by erewrite download_status. }
  destruct (open_error env
              (os_path_join folder (clean_filename filename +:+ ".jpg")))
    as [e|] eqn:Hopen.
  { by erewrite download_open_error. }
  destruct (body_error b) as [e|] eqn:Hbody.
  - erewrite download_broken_body by done. simpl.
    by rewrite lookup_insert_ne.
  - erewrite download_stored by done. simpl. by rewrite lookup_insert_ne.
Qed.

(** X1. A body that breaks off while it is read leaves a file behind:
    [download_image] returns [None] and prints the diagnostic, but the
    file it opened holds the bytes received before the break. *)
Theorem download_image_truncated_file env u folder filename w b e :
  u <> "" ->
  http_get env (length (requests w)) u = HttpResponse 200 b ->
  open_error env (os_path_join folder (clean_filename filename +:+ ".jpg"))
  = None ->
  body_error b = Some e ->
  exists w',
    download_image env (Some u) folder filename w = (Ok VNone, w')
    /\ files w' !! os_path_join folder (clean_filename filename +:+ ".jpg")
       = Some (Bytes (body_bytes b))
    /\ stdout w' = stdout w ++ [diagnostic u e].
Proof.
  intros Hne Hget Hopen Hbody. eexists.
  split; [by apply download_broken_body|]. simpl.
  by rewrite lookup_insert_eq.
Qed.


(** X3. [download_image] touches one path at most, the file name it
    cleaned inside the folder it was given; the name has no slash, so
    the file is in that folder and not below or beside it. *)
Theorem download_image_one_path env url folder filename w :
  PyStr.contains "/" (clean_filename filename +:+ ".jpg") = false
  /\ forall path,
       path <> os_path_join folder (clean_filename filename +:+ ".jpg") ->
       files (snd (download_image env url folder filename w)) !! path
       = files w !! path.
Proof.
  split; [apply clean_name_no_slash|]. intros path.
  apply download_image_files.
Qed.

(** ** Decimal numbers and file names *)

Lemma of_nat_inj n m : PyStr.of_nat n = PyStr.of_nat m -> n = m.
Proof.
  unfold PyStr.of_nat. intros H.
  apply (f_equal NilEmpty.uint_of_string) in H.
  rewrite !NilEmpty.usu in H. injection H as H.
  apply (f_equal Nat.of_uint) in H.
  by rewrite !DecimalNat.Unsigned.of_to in H.
Qed.

Lemma of_nat_digits n : PyStr.all isdigit (PyStr.of_nat n) = true.
Proof.
  unfold PyStr.of_nat. generalize (Nat.to_uint n).
  induction u as [|u IH|u IH|u IH|u IH|u IH|u IH|u IH|u IH|u IH|u IH];
    simpl; done.
Qed.

Lemma of_nat_nonempty n : PyStr.of_nat n <> "".
Proof.
  intros H. assert (n = 0%nat) as ->; [|done].
  pose proof (NilEmpty.usu (Nat.to_uint n)) as Hu.
  unfold PyStr.of_nat in H. rewrite H in Hu. simpl in Hu.
  injection Hu as Hu.
  pose proof (DecimalNat.Unsigned.of_to n) as Hn. by rewrite <- Hu in Hn.
Qed.

Lemma all_impl (p q : ascii -> bool) s :
  (forall c, p c = true -> q c = true) ->
  PyStr.all p s = true -> PyStr.all q s = true.
Proof.
  intros Hpq. induction s as [|c s IH]; simpl; [done|].
  intros [Hc Hs]%andb_prop. by rewrite (Hpq c Hc), IH.
Qed.

Lemma digit_kept c : isdigit c = true -> keep c = true.
Proof. unfold keep, PyStr.isalnum, isdigit. by intros ->. Qed.

Lemma digit_not_space c : isdigit c = true -> PyStr.isspace c = false.
Proof.
  unfold isdigit, PyStr.isspace, PyStr.between, PyStr.code.
  generalize (nat_of_ascii c). intros n [H1 H2]%andb_prop.
  apply Nat.leb_le in H1, H2.
  repeat (apply orb_false_intro); try apply andb_false_iff;
    rewrite ?Nat.leb_gt, ?Nat.eqb_neq; lia.
Qed.

Lemma digit_not_underscore c : isdigit c = true -> Ascii.eqb c "_" = false.
Proof.
  destruct (Ascii.eqb_spec c "_") as [->|]; [|done]. by vm_compute.
Qed.

Lemma filter_append p a b :
  PyStr.filter p (a +:+ b) = PyStr.filter p a +:+ PyStr.filter p b.
Proof.
  induction a as [|c a IH]; [done|].
  change (String c a +:+ b) with (String c (a +:+ b)). simpl.
  destruct (p c); [|done]. by rewrite IH.
Qed.

Lemma filter_all p s : PyStr.all p s = true -> PyStr.filter p s = s.
Proof.
  induction s as [|c s IH]; simpl; [done|].
  intros [-> Hs]%andb_prop. by rewrite IH.
Qed.

Lemma last_append a b : b <> "" -> PyStr.last (a +:+ b) = PyStr.last b.
Proof.
  intros Hb. induction a as [|c a IH]; [done|].
  change (String c a +:+ b) with (String c (a +:+ b)). simpl.
  rewrite IH. destruct (a +:+ b) eqn:Hab; [|done].
  destruct a; [by simpl in Hab|done].
Qed.

Lemma last_all p s c :
  PyStr.all p s = true -> PyStr.last s = Some c -> p c = true.
Proof.
  induction s as [|x s IH]; simpl; [done|].
  intros [Hx Hs]%andb_prop. destruct s; [by intros [= <-]|by apply IH].
Qed.

Lemma rstrip_id s :
  (forall c, PyStr.last s = Some c -> PyStr.isspace c = false) ->
  PyStr.rstrip s = s.
Proof.
  induction s as [|x s IH]; simpl; [done|]. intros Hlast.
  destruct s as [|y s].
  - simpl. by rewrite (Hlast x).
  - rewrite IH by exact Hlast. done.
Qed.

(** The file name of the [n]-th record: the kept characters of the title,
    an underscore and [n]. *)
Lemma clean_image_name t n :
  clean_filename (image_name t n)
  = PyStr.filter keep (safe_title t) +:+ "_" +:+ PyStr.of_nat n.
Proof.
  unfold clean_filename, image_name.
  assert (PyStr.all keep (PyStr.of_nat n) = true) as Hkeep.
  { eapply all_impl; [apply digit_kept|apply of_nat_digits]. }
  rewrite filter_append.
  rewrite (filter_all keep ("_" +:+ PyStr.of_nat n)) by done.
  apply rstrip_id. intros c.
  rewrite last_append by done.
  change ("_" +:+ PyStr.of_nat n) with (String "_" (PyStr.of_nat n)).
  simpl. destruct (PyStr.of_nat n) as [|d s] eqn:Hn;
    [by destruct (of_nat_nonempty n)|].
  intros Hlast. apply digit_not_space.
  eapply last_all; [|exact Hlast]. rewrite <- Hn. apply of_nat_digits.
Qed.

Lemma after_underscore a b x y :
  PyStr.contains "_" x = false -> PyStr.contains "_" y = false ->
  a +:+ String "_" x = b +:+ String "_" y -> x = y.
Proof.
  intros Hx Hy. revert b.
  induction a as [|c a IH]; intros [|d b] H.
  - by injection H.
  - injection H as <- ->. rewrite contains_append in Hx. simpl in Hx.
    by rewrite orb_true_r in Hx.
  - injection H as -> <-. rewrite contains_append in Hy. simpl in Hy.
    by rewrite orb_true_r in Hy.
  - injection H as _ H. by apply (IH b).
Qed.

(** The names of two records of a run are those of their numbers. *)
Lemma clean_image_name_inj t1 n1 t2 n2 :
  clean_filename (image_name t1 n1) +:+ ".jpg"
  = clean_filename (image_name t2 n2) +:+ ".jpg" ->
  n1 = n2.
Proof.
  rewrite !clean_image_name, !append_assoc.
  change ("_" +:+ ?x) with (String "_" x).
  change (String "_" ?x +:+ ?y) with (String "_" (x +:+ y)).
  intros H. apply after_underscore in H.
  - assert (PyStr.of_nat n1 = PyStr.of_nat n2) as Heq; [|by apply of_nat_inj].
    assert (forall a b, a +:+ ".jpg" = b +:+ ".jpg" ->
               PyStr.all isdigit a = true -> PyStr.all isdigit b = true ->
               a = b) as Hcut.
    { induction a as [|c a IH]; intros [|d b] Hab Ha Hb; [done| | |].
      - injection Hab as <- _. done.
      - injection Hab as -> _. done.
      - injection Hab as <- Hab. simpl in Ha, Hb.
        apply andb_prop in Ha as [_ Ha], Hb as [_ Hb].
        by rewrite (IH b). }
    apply Hcut; [done|apply of_nat_digits..].
  - rewrite contains_append.
    rewrite (all_not_contains isdigit) by (done || apply of_nat_digits).
    done.
  - rewrite contains_append.
    rewrite (all_not_contains isdigit) by (done || apply of_nat_digits).
    done.
Qed.

Lemma jpg_not_marker s : s +:+ ".jpg" <> "N/A".
Proof.
  intros H. apply (f_equal String.length) in H.
  rewrite PyStrFacts.length_append in H. simpl in H. lia.
Qed.

(** ** What a run of [get_products] keeps *)

Lemma download_image_value env url folder filename w v w' :
  falsy url = false ->
  download_image env url folder filename w = (Ok v, w') ->
  v = VNone \/ v = VStr (clean_filename filename +:+ ".jpg").
Proof.
  intros _ Hrun.
  destruct (download_image_total env url folder filename w)
    as (v1 & w1 & Hrun1 & Hv & _).
  rewrite Hrun in Hrun1. by injection Hrun1 as -> _.
Qed.

(** The records of a run are added at the end, each under its number. *)
Lemma for_pages_named env base_url pages p w result w' :
  for_pages env base_url pages p w = (Ok result, w') ->
  exists new,
    result = p ++ new
    /\ forall i r, new !! i = Some r -> named (length p + i) r.
Proof.
  intros Hrun.
  destruct (for_pages_keeps env
              (fun p _ p' _ =>
                 exists new, p' = p ++ new
                   /\ forall i r, new !! i = Some r ->
                                  named (length p + i) r))
    with (base_url := base_url) (pages := pages) (p := p) (w := w)
    as (out & p' & w1 & Hrun1 & HR & Hout).
  - intros p0 _. exists []. split; [by rewrite app_nil_r|done].
  - intros p1 _ p2 _ p3 _ (n1 & -> & H1) (n2 & -> & H2).
    exists (n1 ++ n2). split; [by rewrite app_assoc|]. intros i r.
    rewrite lookup_app_Some. intros [Hi|[Hlen Hi]]; [by apply H1|].
    apply H2 in Hi. rewrite length_app in Hi.
    by replace (length p1 + i)%nat
      with (length p1 + length n1 + (i - length n1))%nat by lia.
  - intros p0 w0 line. exists []. split; [by rewrite app_nil_r|done].
  - intros p0 w0 b page. exists []. split; [by rewrite app_nil_r|done].
  - intros p0 w0 t pr g. eexists. split; [done|].
    intros [|i] r; [|done]. intros [= <-]. rewrite Nat.add_0_r.
    exists t, pr, g, (VStr "N/A"). by auto.
  - intros p0 w0 t pr g u v w2 Hu Hd. eexists. split; [done|].
    intros [|i] r; [|done]. intros [= <-]. rewrite Nat.add_0_r.
    exists t, pr, g, v. split; [done|].
    destruct (download_image_value _ _ _ _ _ _ _ Hu Hd) as [->| ->]; auto.
  - rewrite Hrun in Hrun1. injection Hrun1 as <- <-.
    by rewrite (Hout result eq_refl).
Qed.

(** Paths that are not of the form [images/name] keep their content,
    however the loops end. *)
Lemma for_pages_files env base_url pages p w :
  forall path, ~ in_images path ->
    files (snd (for_pages env base_url pages p w)) !! path = files w !! path.
Proof.
  intros path Hpath.
  destruct (for_pages_keeps env
              (fun _ w _ w' => files w' !! path = files w !! path))
    with (base_url := base_url) (pages := pages) (p := p) (w := w)
    as (out & p' & w1 & Hrun1 & HR & Hout); try done.
  - intros; congruence.
  - intros p0 w0 t pr g u v w2 Hu Hd.
    pose proof (download_image_files env u "images"
                  (image_name t (length p0)) w0 path) as Hfiles.
    rewrite Hd in Hfiles. apply Hfiles. intros ->. apply Hpath.
    exists (clean_filename (image_name t (length p0)) +:+ ".jpg").
    split; [|apply clean_name_no_slash].
    unfold os_path_join. rewrite kept_not_slash; [done|].
    apply PyStrFacts.all_rstrip, PyStrFacts.all_filter.
  - by rewrite Hrun1.
Qed.

Lemma has_image_record t p g v :
  v = VNone \/ (exists s, v = VStr (s +:+ ".jpg")) ->
  has_image (record t p g v) = true.
Proof.
  intros [->|[s ->]]; [done|]. unfold has_image. simpl.
  by destruct (String.eqb_spec (s +:+ ".jpg") "N/A")
    as [?%jpg_not_marker|].
Qed.

(** One call of [download_image] and one of [requests.get] for each
    record with an image, none for the others. *)
Lemma for_pages_fetches env base_url pages p w result w' :
  for_pages env base_url pages p w = (Ok result, w') ->
  exists new,
    result = p ++ new
    /\ length (fetch_calls w')
       = (length (fetch_calls w) + length (List.filter has_image new))%nat
    /\ length (requests w')
       = (length (requests w) + length (List.filter has_image new))%nat.
Proof.
  intros Hrun.
  destruct (for_pages_keeps env
              (fun p w p' w' =>
                 exists new, p' = p ++ new
                   /\ length (fetch_calls w')
                      = (length (fetch_calls w)
                         + length (List.filter has_image new))%nat
                   /\ length (requests w')
                      = (length (requests w)
                         + length (List.filter has_image new))%nat))
    with (base_url := base_url) (pages := pages) (p := p) (w := w)
    as (out & p' & w1 & Hrun1 & HR & Hout).
  - intros p0 w0. exists []. simpl. rewrite app_nil_r. by auto with lia.
  - intros p1 w1 p2 w2 p3 w3 (n1 & -> & Hf1 & Hr1) (n2 & -> & Hf2 & Hr2).
    exists (n1 ++ n2). rewrite List.filter_app, length_app.
    split; [by rewrite app_assoc|]. lia.
  - intros p0 w0 line. exists []. simpl. rewrite app_nil_r. by auto with lia.
  - intros p0 w0 b page. exists []. simpl. rewrite app_nil_r.
    by auto with lia.
  - intros p0 w0 t pr g. eexists. split; [done|]. simpl. lia.
  - intros p0 w0 t pr g u v w2 Hu Hd. eexists. split; [done|].
    cbn [List.filter]. rewrite (has_image_record t pr g v); cycle 1.
    { destruct (download_image_value _ _ _ _ _ _ _ Hu Hd) as [->| ->];
        [by left|right; by eexists]. }
    destruct u as [u|]; [|done].
    assert (u <> "") as Hne by by apply String.eqb_neq.
    pose proof (download_image_requests env u "images"
                  (image_name t (length p0)) w0 Hne) as Hreq.
    destruct (download_image_total env (Some u) "images"
                (image_name t (length p0)) w0)
      as (v1 & w3 & Hrun3 & _ & _ & Hcalls & _).
    rewrite Hd in Hreq, Hrun3. injection Hrun3 as <- <-. simpl in Hreq.
    rewrite Hreq, Hcalls, !length_app. simpl. lia.
  - rewrite Hrun in Hrun1. injection Hrun1 as <- <-.
    by rewrite (Hout result eq_refl).
Qed.

(** X4. The number in the file name of a record is its place in the
    result: the record at position [i] (from 0) has as image field
    ["N/A"], [None], or the name made of the first 30 characters of its
    title (of ["product"] when its title is ["N/A"]), reduced to
    letters, digits, spaces, periods and underscores, then an underscore,
    [i] in decimal and [".jpg"]. *)
Theorem record_name_carries_position env keyword pages w result w' i r :
  get_products env keyword pages w = (Ok result, w') ->
  result !! i = Some r ->
  exists t p g v,
    r = record t p g v
    /\ (v = VStr "N/A" \/ v = VNone
        \/ v = VStr (PyStr.filter retained
                       (if String.eqb t "N/A" then "product"
                        else PyStr.slice_to 30 t)
                     +:+ "_" +:+ PyStr.of_nat i +:+ ".jpg")).
Proof.
  intros Hrun Hi. apply for_pages_named in Hrun as (new & -> & Hnew).
  destruct (Hnew i r Hi) as (t & p & g & v & -> & Hv).
  exists t, p, g, v. split; [done|].
  destruct Hv as [->|[->| ->]]; [by left|by right; left|right; right].
  rewrite clean_image_name, !append_assoc.
  rewrite (filter_ext keep retained _ keep_retained).
  unfold safe_title. by destruct (String.eqb t "N/A").
Qed.

(** X5. Two records at different places of one result never have the
    same image file: if their image fields are one string, it is the
    marker ["N/A"]. No download of a run overwrites another one's. *)
Theorem image_names_distinct env keyword pages w result w' i j r1 r2 f :
  get_products env keyword pages w = (Ok result, w') ->
  result !! i = Some r1 ->
  result !! j = Some r2 ->
  i <> j ->
  dict_get r1 "image_filename" = Some (VStr f) ->
  dict_get r2 "image_filename" = Some (VStr f) ->
  f = "N/A".
Proof.
  intros Hrun Hi Hj Hij H1 H2.
  apply for_pages_named in Hrun as (new & -> & Hnew).
  destruct (Hnew i r1 Hi) as (t1 & p1 & g1 & v1 & -> & Hv1).
  destruct (Hnew j r2 Hj) as (t2 & p2 & g2 & v2 & -> & Hv2).
  simpl in H1, H2. injection H1 as ->. injection H2 as ->.
  destruct Hv1 as [[= ->]|[?|[= ->]]]; [done..|].
  destruct Hv2 as [[= H]|[?|[= H]]]; [|done|].
  - by destruct (jpg_not_marker _ H).
  - destruct Hij. by apply clean_image_name_inj in H.
Qed.

(** X6. Whatever a run of [get_products] meets and however it ends, it
    changes no file but those of the form [images/name], [name] having
    no slash. *)
Theorem get_products_writes_under_images env keyword pages w path :
  ~ in_images path ->
  files (snd (get_products env keyword pages w)) !! path = files w !! path.
Proof. apply for_pages_files. Qed.

(** X7. In a run of [get_products], [download_image] is called once,
    and [requests.get] is called once, for each record of the result
    whose image field is not ["N/A"], and never otherwise. *)
Theorem one_fetch_per_image_record env keyword pages w result w' :
  get_products env keyword pages w = (Ok result, w') ->
  length (fetch_calls w')
  = (length (fetch_calls w) + length (List.filter has_image result))%nat
  /\ length (requests w')
     = (length (requests w) + length (List.filter has_image result))%nat.
Proof.
  intros (new & Hnew & H)%for_pages_fetches. simpl in Hnew. by subst.
Qed.

Lemma scrape_page_raises env base_url page products w e :
  browser env (length (visited w)) (page_url base_url page) = GetRaises e
  \/ (browser env (length (visited w)) (page_url base_url page)
      = WaitRaises e
      /\ isinstance e TimeoutException = false) ->
  scrape_page env base_url page products w
  = (Raise e, arrived w base_url page).
Proof.
  unfold scrape_page, bind, print, navigate, try_except. simpl.
  intros [->|[-> He]]; simpl; [done|]. unfold raise. by rewrite He.
Qed.

(** X8. An exception of the browser on page [k] that is not a time-out
    of the wait ends the run of [get_products] with that exception: the
    records of the pages before are not returned and the pages after
    [k] are not visited. *)
Theorem driver_error_ends_run env keyword pages k w e :
  (1 <= k <= pages)%nat ->
  pages_ok env (base_url_of keyword) (length (visited w)) 1 (k - 1) ->
  browser env (length (visited w) + (k - 1))
    (page_url (base_url_of keyword) k) = GetRaises e
  \/ (browser env (length (visited w) + (k - 1))
        (page_url (base_url_of keyword) k) = WaitRaises e
      /\ isinstance e TimeoutException = false) ->
  exists w',
    get_products env keyword pages w = (Raise e, w')
    /\ visited w'
       = visited w ++ map (page_url (base_url_of keyword)) (seq 1 k).
Proof.
  intros [Hk1 Hk2] Hok Hb. destruct k as [|j]; [lia|].
  replace (S j - 1)%nat with j in * by lia.
  destruct (for_pages_run env (base_url_of keyword) j 1 [] w Hok)
    as (outs & w1 & Hrun1 & _ & Hvis1 & _).
  assert (length (visited w1) = (length (visited w) + j)%nat) as Hlen.
  { by rewrite Hvis1, length_app, length_map, length_seq. }
  rewrite <- Hlen in Hb.
  eapply scrape_page_raises in Hb.
  exists (arrived w1 (base_url_of keyword) (S j)).
  unfold get_products.
  replace pages with (j + S (pages - S j))%nat by lia.
  split.
  - rewrite seq_app, for_pages_app. unfold bind. rewrite Hrun1. simpl.
    unfold bind. by rewrite Hb.
  - unfold arrived. cbn [visited].
    by rewrite Hvis1, seq_S, map_app, <- app_assoc.
Qed.

Lemma missing_only_completes env item n w :
  missing_only item -> exists r w', extract_item env item n w = (Ok r, w').
Proof.
  intros (H2 & Hw & Hfr & Hi & Him & Hhtml).
  destruct (extract_title_total item w H2) as [t Ht].
  destruct (extract_price_total item w Hw Hfr) as [p Hp].
  destruct (extract_rating_total item w Hi Hhtml) as [g Hg].
  destruct (extract_image_url_total item w Him) as [u Hu].
  destruct (falsy u) eqn:Hf.
  - exists (record t p g (VStr "N/A")), w. apply extract_item_ok.
    exists t, p, g, u, (VStr "N/A"). by auto 10.
  - destruct (download_image_total env u "images" (image_name t n) w)
      as (v & w1 & Hrun & _).
    exists (record t p g v), w1. apply extract_item_ok.
    exists t, p, g, u, v. by auto 10.
Qed.

Lemma collected_length env items outs :
  Forall2 (yields env) items outs ->
  (length (collected outs) <= length items)%nat
  /\ (Forall missing_only items -> length (collected outs) = length items).
Proof.
  induction 1 as [|item o items outs Ho _ [IH1 IH2]]; [done|].
  destruct o as [r|]; simpl.
  - split; [lia|]. intros [_ Hall]%Forall_cons. by rewrite IH2.
  - split; [lia|]. intros [Hitem _]%Forall_cons. destruct Ho as [e He].
    destruct (missing_only_completes env item 0 Sample.w0 Hitem)
      as (r & w' & Hr). by rewrite He in Hr.
Qed.

(** X9. A run in which no page ends the run returns at most one record
    per listing node, and exactly one per node when the nodes fail, if
    they fail, by missing elements only: such a node is never dropped. *)
Theorem one_record_per_node env keyword pages w :
  pages_ok env (base_url_of keyword) (length (visited w)) 1 pages ->
  exists result w',
    get_products env keyword pages w = (Ok result, w')
    /\ (length result
        <= length (page_nodes env (base_url_of keyword)
                     (length (visited w)) 1 pages))%nat
    /\ (Forall missing_only
          (page_nodes env (base_url_of keyword) (length (visited w)) 1 pages)
        -> length result
           = length (page_nodes env (base_url_of keyword)
                       (length (visited w)) 1 pages)).
Proof.
  intros Hok.
  destruct (for_pages_run env (base_url_of keyword) pages 1 [] w Hok)
    as (outs & w' & Hrun & Hall & _).
  exists (collected outs), w'. split; [done|].
  by apply (collected_length env).
Qed.

(** ** More on [save_to_csv] *)

Lemma existsb_eqb_In k l : existsb (String.eqb k) l = true <-> In k l.
Proof.
  rewrite existsb_exists. split.
  - by intros (x & Hx & ->%String.eqb_eq).
  - intros Hk. exists k. split; [done|apply String.eqb_refl].
Qed.

Lemma dict_to_list_within fieldnames d :
  (forall k, In k (keys d) -> In k fieldnames) ->
  dict_to_list fieldnames d
  = Ok (map (fun k => default (VStr "") (dict_get d k)) fieldnames).
Proof.
  intros Hd. unfold dict_to_list.
  replace (forallb _ (keys d)) with true; [done|].
  symmetry. apply forallb_forall. intros k Hk.
  by apply existsb_eqb_In, Hd.
Qed.


(** The rows of the records whose keys are field names are written one
    after the other, whatever comes after them. *)
Lemma writerows_prefix path fieldnames good tail : forall written w,
  Forall (fun d => forall k, In k (keys d) -> In k fieldnames) good ->
  files w !! path = Some (Rows written) ->
  writerows path fieldnames written (good ++ tail) w
  = writerows path fieldnames
      (written
       ++ map (fun d =>
                 map (fun k => default (VStr "") (dict_get d k)) fieldnames)
            good)
      tail
      (mkWorld (stdout w)
         (<[path := Rows (written
                          ++ map (fun d =>
                                    map (fun k => default (VStr "")
                                                    (dict_get d k))
                                      fieldnames)
                               good)]> (files w))
         (requests w) (visited w) (fetch_calls w)).
Proof.
  induction good as [|d good IH]; intros written w Hall Hw.
  - simpl. rewrite app_nil_r, insert_id by done. by destruct w.
  - apply Forall_cons in Hall as [Hd Hall].
    change ((d :: good) ++ tail) with (d :: (good ++ tail)).
    cbn [writerows]. unfold bind, lift.
    rewrite dict_to_list_within by done. unfold set_file at 1.
    rewrite IH; [|done|by simpl; rewrite lookup_insert_eq].
    simpl. by rewrite insert_insert_eq, <- app_assoc.
Qed.

Lemma keys_within_self d : forall k, In k (keys d) -> In k (keys d).
Proof. done. Qed.

Lemma save_to_csv_all_rows env first rest filename w :
  Forall (fun d => forall k, In k (keys d) -> In k (keys first)) rest ->
  open_error env filename = None ->
  save_to_csv env (first :: rest) filename w
  = (Ok tt,
     mkWorld (stdout w ++ [saved (first :: rest) filename])
       (<[filename
          := Rows (map VStr (keys first)
                   :: map (fun d =>
                             map (fun k => default (VStr "") (dict_get d k))
                               (keys first))
                        (first :: rest))]> (files w))
       (requests w) (visited w) (fetch_calls w)).
Proof.
  intros Hall Hopen.
  unfold save_to_csv, try_except, bind, open_w. rewrite Hopen.
  unfold set_file at 1 2. cbn -[writerows].
  rewrite <- (app_nil_r (first :: rest)) at 1.
  rewrite (writerows_prefix filename (keys first) (first :: rest) []);
    [|by constructor|by simpl; rewrite lookup_insert_eq].
  cbn -[map]. unfold print. cbn -[map].
  by rewrite !insert_insert_eq.
Qed.

(** X10. When every record has its keys among those of the first one and
    the file can be opened, [save_to_csv] writes under each key of the
    first record the value the record has for it, and the empty string
    where the record has none: every row is as long as the header; it
    then prints how many records it saved. *)
Theorem save_to_csv_fills_missing_fields env first rest filename w :
  Forall (fun d => forall k, In k (keys d) -> In k (keys first)) rest ->
  open_error env filename = None ->
  exists w',
    save_to_csv env (first :: rest) filename w = (Ok tt, w')
    /\ files w' !! filename
       = Some (Rows (map VStr (keys first)
                     :: map (fun d =>
                               map (fun k => default (VStr "")
                                               (dict_get d k))
                                 (keys first))
                          (first :: rest)))
    /\ stdout w' = stdout w ++ [saved (first :: rest) filename].
Proof.
  intros Hall Hopen. eexists.
  split; [by apply save_to_csv_all_rows|]. simpl.
  by rewrite lookup_insert_eq.
Qed.


(** X12. [save_to_csv] never raises. When there are records and the file
    cannot be opened, it prints the error and writes nothing. *)
Theorem save_to_csv_contains_errors env filename w :
  (forall products,
     exists w', save_to_csv env products filename w = (Ok tt, w'))
  /\ (forall first rest e,
        open_error env filename = Some e ->
        exists w',
          save_to_csv env (first :: rest) filename w = (Ok tt, w')
          /\ files w' = files w
          /\ stdout w' = stdout w ++ ["Error saving to CSV: " +:+ exn_msg e]).
Proof.
  split.
  - intros [|first rest]; [by eexists|].
    unfold save_to_csv, try_except.
    match goal with |- context [bind ?a ?b w] =>
      destruct (bind a b w) as [[[]|e] w1]
    end; [by eexists|].
    rewrite isinstance_Exception. by eexists.
  - intros first rest e Hopen.
    unfold save_to_csv, try_except, bind, open_w. rewrite Hopen.
    unfold raise. rewrite isinstance_Exception. by eexists.
Qed.

(** X13. The records of a run of [get_products] can always be saved:
    when the run returns at least one record and the file can be opened,
    [save_to_csv] writes the header title, price, rating, image_filename
    and then the four values of each record, in the order of the run. *)
Theorem scrape_then_save env keyword pages w result w1 filename :
  get_products env keyword pages w = (Ok result, w1) ->
  result <> [] ->
  open_error env filename = None ->
  exists w2,
    save_to_csv env result filename w1 = (Ok tt, w2)
    /\ files w2 !! filename
       = Some (Rows ([VStr "title"; VStr "price"; VStr "rating";
                      VStr "image_filename"]
                     :: map (map snd) result)).
Proof.
  intros Hrun Hne Hopen.
  apply for_pages_named in Hrun as (new & Hnew & Hnamed). simpl in Hnew.
  subst new.
  assert (Forall (fun d => exists t p g v, d = record t p g v) result)
    as Hshape.
  { apply Forall_forall. intros d [i Hi]%list_elem_of_lookup.
    destruct (Hnamed i d Hi) as (t & p & g & v & -> & _). by eexists _, _, _, _. }
  destruct result as [|first rest]; [done|].
  apply Forall_cons in Hshape as [(t & p & g & v & ->) Hrest].
  eexists. split.
  - apply save_to_csv_all_rows; [|done].
    eapply Forall_impl; [exact Hrest|].
    by intros d (t' & p' & g' & v' & ->).
  - simpl. rewrite lookup_insert_eq. do 4 f_equal.
    apply map_ext_Forall. eapply Forall_impl; [exact Hrest|].
    by intros d (t' & p' & g' & v' & ->).
Qed.

(** ** The URLs of the pages *)

Lemma append_inj_l a x y : a +:+ x = a +:+ y -> x = y.
Proof.
  induction a as [|c a IH]; [done|].
  change (String c a +:+ ?z) with (String c (a +:+ z)).
  intros [= H]. by apply IH.
Qed.

Lemma replace_no_space s : PyStr.contains " " (PyStr.replace " " "+" s) = false.
Proof.
  induction s as [|c s IH]; simpl; [done|]. rewrite IH.
  destruct (Ascii.eqb c " ") eqn:Hc; [done|]. by rewrite Hc.
Qed.

(** X14. Different pages have different URLs, and the URL of a page has
    no space, whatever the keyword: its spaces are sent as [+]. *)
Theorem page_urls_distinct_without_space keyword :
  (forall page1 page2,
     page_url (base_url_of keyword) page1
     = page_url (base_url_of keyword) page2 ->
     page1 = page2)
  /\ (forall page,
        PyStr.contains " " (page_url (base_url_of keyword) page) = false).
Proof.
  split.
  - unfold page_url. intros page1 page2 H.
    by apply append_inj_l, append_inj_l, of_nat_inj in H.
  - intros page. unfold page_url, base_url_of.
    rewrite !contains_append, replace_no_space.
    rewrite (all_not_contains isdigit " " (PyStr.of_nat page))
      by (done || apply of_nat_digits).
    done.
Qed.

(** ** [main] *)

Lemma save_to_csv_total env products filename w :
  exists w', save_to_csv env products filename w = (Ok tt, w').
Proof.
  destruct products as [|first rest]; [by eexists|].
  unfold save_to_csv, try_except.
  match goal with |- context [bind ?a ?b w] =>
    destruct (bind a b w) as [[[]|e] w1]
  end; [by eexists|].
  rewrite isinstance_Exception. by eexists.
Qed.

(** What [main] comes to once the line is read and the folder is there:
    the browser does not start and the error is printed; or it starts,
    the pages are read, the records saved or the error printed, and the
    browser is quit. *)
Lemma main_run host env p typed :
  input_line host = Ok typed ->
  images_exists host = true \/ makedirs_error host = None ->
  let dirs := if images_exists host then made_dirs p
              else made_dirs p ++ ["images"] in
  let w1 := greeted (world p) typed in
  main host env p
  = match chrome_error host (chrome_arguments true) binary_location with
    | Some e =>
        (Ok tt, mkProcess (logged w1 (failed e)) dirs (started p)
                  (quit_calls p) None)
    | None =>
        let run := get_products env (keyword_of typed) 2 w1 in
        let w3 := match fst run with
                  | Ok l => snd (save_to_csv env l csv_path (snd run))
                  | Raise e => logged (snd run) (failed e)
                  end in
        match quit_error host with
        | Some e =>
            (Raise e,
             mkProcess w3 dirs
               (started p ++ [(chrome_arguments true, binary_location)])
               (S (quit_calls p)) (Some tt))
        | None =>
            (Ok tt,
             mkProcess (logged w3 "Browser closed.") dirs
               (started p ++ [(chrome_arguments true, binary_location)])
               (S (quit_calls p)) (Some tt))
        end
    end.
Proof.
  intros Hin Hdirs dirs w1. subst dirs w1.
  unfold main, bindP, input, bindP, in_world, print, try_finally,
    try_exceptP, setup_driver, set_driver, quit, makedirs, retP, bindP.
  cbn [world made_dirs started quit_calls driver]. rewrite Hin.
  unfold greeted, keyword_of, failed, logged.
  destruct Hdirs as [Hex|Hmk].
  - rewrite Hex. cbn [negb world made_dirs started quit_calls driver].
    destruct (chrome_error host (chrome_arguments true) binary_location)
      as [e|]; cbn [world made_dirs started quit_calls driver].
    + by rewrite isinstance_Exception.
    + destruct (get_products env _ 2 _) as [[l|e] w2];
        cbn [fst snd world made_dirs started quit_calls driver].
      * destruct (save_to_csv_total env l csv_path w2) as [w3 ->].
        cbn [fst snd world made_dirs started quit_calls driver].
        by destruct (quit_error host).
      * rewrite isinstance_Exception.
        cbn [fst snd world made_dirs started quit_calls driver].
        by destruct (quit_error host).
  - rewrite Hmk.
    destruct (images_exists host);
      cbn [negb world made_dirs started quit_calls driver];
      destruct (chrome_error host (chrome_arguments true) binary_location)
        as [e|]; cbn [world made_dirs started quit_calls driver];
      try (by rewrite isinstance_Exception);
      (destruct (get_products env _ 2 _) as [[l|e] w2];
       cbn [fst snd world made_dirs started quit_calls driver];
       [destruct (save_to_csv_total env l csv_path w2) as [w3 ->];
        cbn [fst snd world made_dirs started quit_calls driver];
        by destruct (quit_error host)
       |rewrite isinstance_Exception;
        cbn [fst snd world made_dirs started quit_calls driver];
        by destruct (quit_error host)]).
Qed.

Lemma main_input_raises host env p e :
  input_line host = Raise e ->
  main host env p
  = (Raise e, mkProcess (logged (world p) prompt) (made_dirs p) (started p)
                (quit_calls p) (driver p)).
Proof.
  intros Hin. unfold main, bindP, input, bindP, in_world, print.
  cbn [world made_dirs started quit_calls driver]. by rewrite Hin.
Qed.

Lemma main_makedirs_raises host env p typed e :
  input_line host = Ok typed ->
  images_exists host = false ->
  makedirs_error host = Some e ->
  main host env p
  = (Raise e, mkProcess (logged (world p) prompt) (made_dirs p) (started p)
                (quit_calls p) (driver p)).
Proof.
  intros Hin Hex Hmk.
  unfold main, bindP, input, bindP, in_world, print, makedirs.
  cbn [world made_dirs started quit_calls driver].
  by rewrite Hin, Hex, Hmk.
Qed.

Lemma writerows_visited path fieldnames products : forall written w,
  visited (snd (writerows path fieldnames written products w)) = visited w.
Proof.
  induction products as [|d products IH]; intros written w; [done|].
  simpl. unfold bind, lift. destruct (dict_to_list fieldnames d); [|done].
  unfold set_file at 1. by rewrite IH.
Qed.

Lemma save_to_csv_visited env products filename w :
  visited (snd (save_to_csv env products filename w)) = visited w.
Proof.
  destruct products as [|first rest]; [done|].
  unfold save_to_csv, try_except, bind, open_w.
  destruct (open_error env filename) as [e|].
  { unfold raise. by rewrite isinstance_Exception. }
  unfold set_file at 1 2. cbn -[writerows].
  match goal with |- context [writerows ?a ?b ?c ?d ?w0] =>
    pose proof (writerows_visited a b d c w0) as Hvis;
    destruct (writerows a b c d w0) as [[[]|e] w1]
  end; simpl in *; [done|]. by rewrite isinstance_Exception.
Qed.

(** X15. However [main] ends, by returning or by raising, every browser
    it started was asked to quit, and it started one at most. *)
Theorem main_quits_what_it_starts host env p :
  (length (started (snd (main host env p))) + quit_calls p
   = length (started p) + quit_calls (snd (main host env p)))%nat
  /\ (length (started (snd (main host env p))) <= S (length (started p)))%nat.
Proof.
  destruct (input_line host) as [typed|e] eqn:Hin;
    [|rewrite (main_input_raises host env p e) by done; simpl; lia].
  destruct (images_exists host) eqn:Hex; [|destruct (makedirs_error host)
    as [e|] eqn:Hmk;
    [rewrite (main_makedirs_raises host env p typed e) by done; simpl; lia|]];
    (rewrite (main_run host env p typed) by auto);
    destruct (chrome_error host (chrome_arguments true) binary_location);
    destruct (quit_error host);
    cbn [snd world made_dirs started quit_calls driver];
    rewrite ?length_app; simpl; lia.
Qed.

(** X16. Once the line is read and the folder of the images is there,
    [main] returns without raising, whatever the browser, the pages,
    the network and the file system do, as long as quitting the browser
    does not raise. *)
Theorem main_contains_errors host env p typed :
  input_line host = Ok typed ->
  images_exists host = true \/ makedirs_error host = None ->
  quit_error host = None ->
  exists p', main host env p = (Ok tt, p').
Proof.
  intros Hin Hdirs Hquit. rewrite (main_run host env p typed) by done.
  destruct (chrome_error host (chrome_arguments true) binary_location);
    [by eexists|].
  rewrite Hquit. by eexists.
Qed.

Lemma csv_path_not_in_images : ~ in_images csv_path.
Proof. by intros (name & H & _). Qed.

(** X17. When the run of [get_products] raises, [main] prints the error,
    leaves the CSV file as it was, quits the browser and says so. *)
Theorem main_reports_failed_run host env p typed e w2 :
  input_line host = Ok typed ->
  images_exists host = true \/ makedirs_error host = None ->
  chrome_error host (chrome_arguments true) binary_location = None ->
  quit_error host = None ->
  get_products env (keyword_of typed) 2 (greeted (world p) typed)
  = (Raise e, w2) ->
  exists p',
    main host env p = (Ok tt, p')
    /\ stdout (world p') = stdout w2 ++ [failed e; "Browser closed."]
    /\ files (world p') !! csv_path = files (world p) !! csv_path
    /\ quit_calls p' = S (quit_calls p).
Proof.
  intros Hin Hdirs Hchrome Hquit Hrun.
  rewrite (main_run host env p typed) by done.
  rewrite Hchrome, Hquit, Hrun. eexists. split; [done|].
  cbn [fst snd world made_dirs started quit_calls driver].
  split; [by simpl; rewrite <- app_assoc|]. split; [|done].
  pose proof (for_pages_files env (base_url_of (keyword_of typed)) (seq 1 2)
                [] (greeted (world p) typed) csv_path
                csv_path_not_in_images) as Hfiles.
  fold (get_products env (keyword_of typed) 2) in Hfiles.
  by rewrite Hrun in Hfiles.
Qed.

(** X18. When the browser does not start, [main] prints the error and
    returns: no page is visited, no request sent, no file written, and
    nothing is quit. *)
Theorem main_without_browser host env p typed e :
  input_line host = Ok typed ->
  images_exists host = true \/ makedirs_error host = None ->
  chrome_error host (chrome_arguments true) binary_location = Some e ->
  exists p',
    main host env p = (Ok tt, p')
    /\ stdout (world p')
       = stdout (world p)
         ++ [prompt; "Starting scraper for: " +:+ keyword_of typed; failed e]
    /\ visited (world p') = visited (world p)
    /\ requests (world p') = requests (world p)
    /\ files (world p') = files (world p)
    /\ started p' = started p
    /\ quit_calls p' = quit_calls p.
Proof.
  intros Hin Hdirs Hchrome.
  rewrite (main_run host env p typed) by done. rewrite Hchrome.
  eexists. split; [done|]. simpl. by rewrite <- !app_assoc.
Qed.

(** X19. With a browser and pages that do not end the run, [main] visits
    the first two pages of the search for the line that was typed, or
    for ["laptop"] when the line is empty, and no other page. *)
Theorem main_visits_two_pages host env p typed :
  input_line host = Ok typed ->
  images_exists host = true \/ makedirs_error host = None ->
  chrome_error host (chrome_arguments true) binary_location = None ->
  pages_ok env (base_url_of (keyword_of typed))
    (length (visited (world p))) 1 2 ->
  keyword_of "" = "laptop"
  /\ visited (world (snd (main host env p)))
     = visited (world p)
       ++ [page_url (base_url_of (keyword_of typed)) 1;
           page_url (base_url_of (keyword_of typed)) 2].
Proof.
  intros Hin Hdirs Hchrome Hok. split; [done|].
  rewrite (main_run host env p typed) by done. rewrite Hchrome.
  destruct (for_pages_run env (base_url_of (keyword_of typed)) 2 1 []
              (greeted (world p) typed) Hok)
    as (outs & w2 & Hrun & _ & Hvis & _).
  fold (get_products env (keyword_of typed) 2) in Hrun.
  rewrite Hrun. cbn [fst snd].
  pose proof (save_to_csv_visited env (collected outs) csv_path w2) as Hsave.
  destruct (quit_error host);
    cbn [snd world made_dirs started quit_calls driver];
    simpl in *; congruence.
Qed.

(** X20. The two steps before the [try] are not guarded: an exception of
    [input], or of creating the folder of the images when it is missing,
    leaves [main] as it is, and no browser was started. *)
Theorem main_unguarded_start host env p :
  (forall e,
     input_line host = Raise e ->
     fst (main host env p) = Raise e
     /\ started (snd (main host env p)) = started p)
  /\ (forall typed e,
        input_line host = Ok typed ->
        images_exists host = false ->
        makedirs_error host = Some e ->
        fst (main host env p) = Raise e
        /\ started (snd (main host env p)) = started p).
Proof.
  split.
  - intros e Hin. by rewrite (main_input_raises host env p e).
  - intros typed e Hin Hex Hmk.
    by rewrite (main_makedirs_raises host env p typed e).
Qed.

(** ** Examples of the further properties *)

Lemma download_image_truncated_file_witness :
  exists w',
    download_image Sample.env_cut (Some "http://img/A") "images" "A_0"
      Sample.w0 = (Ok VNone, w')
    /\ files w' !! "images/A_0.jpg" = Some (Bytes "ab")
    /\ stdout w' = [diagnostic "http://img/A" (mkExn ConnectionError "reset")].
Proof.
  apply (download_image_truncated_file Sample.env_cut "http://img/A" "images"
           "A_0" Sample.w0
           (BodyChunk "ab" (BodyFail (mkExn ConnectionError "reset")))
           (mkExn ConnectionError "reset")); try reflexivity.
  discriminate.
Defined.


Lemma record_name_carries_position_witness :
  exists t p g v,
    record "N/A" "N/A" "N/A" (VStr "product_1.jpg") = record t p g v
    /\ (v = VStr "N/A" \/ v = VNone
        \/ v = VStr (PyStr.filter retained
                       (if String.eqb t "N/A" then "product"
                        else PyStr.slice_to 30 t)
                     +:+ "_" +:+ PyStr.of_nat 1 +:+ ".jpg")).
Proof.
  apply (record_name_carries_position Sample.env_untitled "laptop" 1
           Sample.w0
           [record "A" "$12.99" "4.5" (VStr "A_0.jpg");
            record "N/A" "N/A" "N/A" (VStr "product_1.jpg")]
           (snd (get_products Sample.env_untitled "laptop" 1 Sample.w0)) 1).
  - vm_compute. reflexivity.
  - reflexivity.
Defined.

Lemma image_names_distinct_witness : "N/A" = "N/A".
Proof.
  apply (image_names_distinct Sample.env_plain "laptop" 1 Sample.w0
           [record "N/A" "N/A" "N/A" (VStr "N/A");
            record "N/A" "N/A" "4.5" (VStr "N/A")]
           (snd (get_products Sample.env_plain "laptop" 1 Sample.w0))
           0 1
           (record "N/A" "N/A" "N/A" (VStr "N/A"))
           (record "N/A" "N/A" "4.5" (VStr "N/A")) "N/A").
  - vm_compute. reflexivity.
  - reflexivity.
  - reflexivity.
  - discriminate.
  - reflexivity.
  - reflexivity.
Defined.

Lemma get_products_writes_under_images_witness :
  files (snd (get_products Sample.env_ok "laptop" 2 Sample.w0))
  !! "products.csv"
  = files Sample.w0 !! "products.csv".
Proof.
  apply (get_products_writes_under_images Sample.env_ok "laptop" 2 Sample.w0
           "products.csv").
  intros (name & H & _). discriminate H.
Defined.

Lemma one_fetch_per_image_record_witness :
  length (fetch_calls (snd (get_products Sample.env_timeout "laptop" 2
                              Sample.w0))) = 1%nat
  /\ length (requests (snd (get_products Sample.env_timeout "laptop" 2
                              Sample.w0))) = 1%nat.
Proof.
  apply (one_fetch_per_image_record Sample.env_timeout "laptop" 2 Sample.w0
           [record "C" "$12.99" "4.5" VNone;
            record "N/A" "N/A" "N/A" (VStr "N/A")]).
  vm_compute. reflexivity.
Defined.

Lemma driver_error_ends_run_witness :
  exists w',
    get_products Sample.env_down "laptop" 2 Sample.w0
    = (Raise (mkExn WebDriverException "net::ERR"), w')
    /\ visited w' = [page_url (base_url_of "laptop") 1].
Proof.
  apply (driver_error_ends_run Sample.env_down "laptop" 2 1 Sample.w0
           (mkExn WebDriverException "net::ERR")).
  - split; [apply le_n|apply le_S, le_n].
  - exact I.
  - left. reflexivity.
Defined.

Lemma one_record_per_node_witness :
  exists result w',
    get_products Sample.env_plain "laptop" 1 Sample.w0 = (Ok result, w')
    /\ (length result <= 2)%nat
    /\ (Forall missing_only [Sample.bare; Sample.partial] ->
        length result = 2%nat).
Proof.
  apply (one_record_per_node Sample.env_plain "laptop" 1 Sample.w0).
  simpl. auto.
Defined.

Lemma save_to_csv_fills_missing_fields_witness :
  exists w',
    save_to_csv Sample.env_ok
      [record "A" "$1.00" "4.5" VNone; [("title", VStr "B")]]
      "products.csv" Sample.w0 = (Ok tt, w')
    /\ files w' !! "products.csv"
       = Some (Rows [[VStr "title"; VStr "price"; VStr "rating";
                      VStr "image_filename"];
                     [VStr "A"; VStr "$1.00"; VStr "4.5"; VNone];
                     [VStr "B"; VStr ""; VStr ""; VStr ""]])
    /\ stdout w' = ["Successfully saved 2 products to products.csv"].
Proof.
  apply (save_to_csv_fills_missing_fields Sample.env_ok
           (record "A" "$1.00" "4.5" VNone) [[("title", VStr "B")]]
           "products.csv" Sample.w0).
  - constructor; [|constructor]. simpl. intros k [<-|[]]. by left.
  - reflexivity.
Defined.


Lemma scrape_then_save_witness :
  exists w2,
    save_to_csv Sample.env_timeout
      [record "C" "$12.99" "4.5" VNone; record "N/A" "N/A" "N/A" (VStr "N/A")]
      "products.csv"
      (snd (get_products Sample.env_timeout "laptop" 2 Sample.w0))
    = (Ok tt, w2)
    /\ files w2 !! "products.csv"
       = Some (Rows [[VStr "title"; VStr "price"; VStr "rating";
                      VStr "image_filename"];
                     [VStr "C"; VStr "$12.99"; VStr "4.5"; VNone];
                     [VStr "N/A"; VStr "N/A"; VStr "N/A"; VStr "N/A"]]).
Proof.
  apply (scrape_then_save Sample.env_timeout "laptop" 2 Sample.w0
           [record "C" "$12.99" "4.5" VNone;
            record "N/A" "N/A" "N/A" (VStr "N/A")]).
  - vm_compute. reflexivity.
  - discriminate.
  - reflexivity.
Defined.

Lemma main_contains_errors_witness :
  exists p', main Sample.host_ok Sample.env_down Sample.p0 = (Ok tt, p').
Proof.
  apply (main_contains_errors Sample.host_ok Sample.env_down Sample.p0 "").
  - reflexivity.
  - left. reflexivity.
  - reflexivity.
Defined.

Lemma main_reports_failed_run_witness :
  exists p',
    main Sample.host_ok Sample.env_down Sample.p0 = (Ok tt, p')
    /\ stdout (world p')
       = [prompt; "Starting scraper for: laptop";
          scraping (base_url_of "laptop") 1;
          failed (mkExn WebDriverException "net::ERR"); "Browser closed."]
    /\ files (world p') !! csv_path = None
    /\ quit_calls p' = 1%nat.
Proof.
  apply (main_reports_failed_run Sample.host_ok Sample.env_down Sample.p0 ""
           (mkExn WebDriverException "net::ERR")
           (snd (get_products Sample.env_down "laptop" 2
                   (greeted Sample.w0 "")))).
  - reflexivity.
  - left. reflexivity.
  - reflexivity.
  - reflexivity.
  - vm_compute. reflexivity.
Defined.

Lemma main_without_browser_witness :
  exists p',
    main Sample.host_no_chrome Sample.env_ok Sample.p0 = (Ok tt, p')
    /\ stdout (world p')
       = [prompt; "Starting scraper for: tv";
          failed (mkExn WebDriverException "chrome not reachable")]
    /\ visited (world p') = []
    /\ requests (world p') = []
    /\ files (world p') = ∅
    /\ started p' = []
    /\ quit_calls p' = 0%nat.
Proof.
  apply (main_without_browser Sample.host_no_chrome Sample.env_ok Sample.p0
           "tv" (mkExn WebDriverException "chrome not reachable")).
  - reflexivity.
  - left. reflexivity.
  - reflexivity.
Defined.

Lemma main_visits_two_pages_witness :
  keyword_of "" = "laptop"
  /\ visited (world (snd (main Sample.host_ok Sample.env_ok Sample.p0)))
     = [page_url (base_url_of "laptop") 1; page_url (base_url_of "laptop") 2].
Proof.
  apply (main_visits_two_pages Sample.host_ok Sample.env_ok Sample.p0 "").
  - reflexivity.
  - left. reflexivity.
  - reflexivity.
  - simpl. auto.
Defined.

Lemma main_unguarded_start_witness :
  fst (main Sample.host_no_folder Sample.env_ok Sample.p0)
  = Raise (mkExn OSError "permission denied")
  /\ started (snd (main Sample.host_no_folder Sample.env_ok Sample.p0)) = [].
Proof.
  apply (proj2 (main_unguarded_start Sample.host_no_folder Sample.env_ok
                  Sample.p0) "tv" (mkExn OSError "permission denied"));
    reflexivity.
Defined.
